(** * Maxine Mod Tracker: the persistence and schema-evolution layer

    A shallow embedding of [data_store.py], [models.py] and of the parts of
    [ui_main.py], [ui_editors.py] and [maxine_mods.py] that consume the stored
    data: the atomic writer, the loaders of the document and of the settings,
    the maintenance due computation, mark-done and the attachment path
    allocator.

    Python values are the values [json.loads] produces.  A dict is an
    association list in insertion order; lookups take the first binding of a
    key, and an assignment to a key that is there replaces it in place.  The
    filesystem is a finite map from paths to nodes, with the text of a file
    kept as what [json.loads] makes of it; the clock is the reading
    [now_iso()] returns during one operation; exceptions are results; the
    documents the application holds live in a heap and are passed by
    reference.  What the standard library decides (the names [mkstemp]
    draws, which system calls fail, how a float literal reads and prints) is
    an input of the model. *)

From Stdlib Require Import ZArith String Ascii List Bool Lia.
From Stdlib Require Import Floats.SpecFloat.
From stdpp Require Import base option gmap strings list pretty.

(** ** Python values *)

#[local] Set Warnings "-register-all".


(** A Python [float] is a binary64 value, in the canonical form the
    interpreter keeps it in. *)
Definition float64 : Type := spec_float.

Inductive json : Type :=
| JNull
| JBool (b : bool)
| JInt (z : Z)
| JFloat (f : float64)
| JStr (s : string)
| JList (l : list json)
| JDict (d : list (string * json)).

Module Dict.

(** [d.get(k)] *)
Fixpoint get (k : string) (d : list (string * json)) : option json :=
  match d with
  | [] => None
  | (k', v) :: d' => if String.eqb k k' then Some v else get k d'
  end.

(** [k in d] *)
Definition has (k : string) (d : list (string * json)) : bool :=
  match get k d with Some _ => true | None => false end.

(** [d[k] = v] *)
Fixpoint set (k : string) (v : json) (d : list (string * json))
  : list (string * json) :=
  match d with
  | [] => [(k, v)]
  | (k', v') :: d' =>
      if String.eqb k k' then (k, v) :: d' else (k', v') :: set k v d'
  end.

(** [d.setdefault(k, v)], as far as its effect on [d] goes *)
Definition setdefault (k : string) (v : json) (d : list (string * json))
  : list (string * json) :=
  if has k d then d else set k v d.

(** [d.get(k, dflt)] *)
Definition get_or (k : string) (dflt : json) (d : list (string * json)) : json :=
  match get k d with Some v => v | None => dflt end.

End Dict.

(** [1.0] *)
Definition float_one : float64 := S754_finite false 4503599627370496 (-52).

(** [bool(v)] *)
Definition py_truthy (v : json) : bool :=
  match v with
  | JNull => false
  | JBool b => b
  | JInt z => negb (z =? 0)%Z
  | JFloat (S754_zero _) => false
  | JFloat _ => true
  | JStr s => negb (String.eqb s "")
  | JList l => match l with [] => false | _ => true end
  | JDict d => match d with [] => false | _ => true end
  end.

(** [v == 1], for [v] the result of [raw.get("schema")].  Python compares
    numbers by value, so [True] and [1.0] are equal to [1]. *)
Definition py_eq_one (v : option json) : bool :=
  match v with
  | Some (JInt z) => (z =? 1)%Z
  | Some (JBool b) => b
  | Some (JFloat f) => SFeqb f float_one
  | _ => false
  end.

(** [v.setdefault(k, dflt)] on an arbitrary value: only a dict has the
    method, anything else raises [AttributeError] ([None]). *)
Definition py_setdefault (k : string) (dflt : json) (v : json) : option json :=
  match v with
  | JDict d => Some (JDict (Dict.setdefault k dflt d))
  | _ => None
  end.

(** ** The world: clock and filesystem *)

(** A path is a directory and a file name in it. *)
Definition path : Type := string * string.

(** The text of a file, as [json.loads] sees it: either it rejects the text
    (arbitrary bytes, truncated or otherwise malformed JSON), or it accepts it
    and returns a value.  [json.dump] writes a text that reads back as the
    value written. *)
Inductive content : Type :=
| Garbage (text : string)
| JsonText (j : json).

(** What is at a path: a file, or something [exists()] reports but
    [read_text] cannot read (a directory, a file without read permission, a
    file that is not UTF-8). *)
Inductive node : Type :=
| File (c : content)
| Unreadable.

(** How the operating system answers the calls of one write: whether
    [mkdir] succeeds, the names [mkstemp] draws, whether writing the text
    raises (and what had reached the file by then), whether [os.replace] and
    [unlink] succeed. *)
Record oracle : Type := Oracle {
  mkdir_ok : bool;
  tmp_tokens : list string;
  dump_fails : option string;
  replace_ok : bool;
  unlink_ok : bool
}.

Record world : Type := World {
  base_dir : string;            (* [Path(__file__).resolve().parent] *)
  clock : string;               (* what [now_iso()] returns *)
  dirs : gset string;           (* the directories [mkdir] has to provide *)
  files : gmap path node;       (* what exists at each path *)
  env : oracle
}.

Definition with_dirs (ds : gset string) (w : world) : world :=
  World (base_dir w) (clock w) ds (files w) (env w).

Definition with_files (fs : gmap path node) (w : world) : world :=
  World (base_dir w) (clock w) (dirs w) fs (env w).

(** Exceptions are results. *)
Inductive exn : Type :=
| OSError | TypeError | ValueError | IndexError | KeyError | AttributeError.

Inductive result (A : Type) : Type :=
| Ok (a : A)
| Raise (e : exn).
Arguments Ok {A} a.
Arguments Raise {A} e.

(** models.py *)
Definition DATA_FILE : string := "maxine_mods.json".
Definition SETTINGS_FILE : string := "maxine_settings.json".
Definition ASSETS_DIR : string := "maxine_assets".
Definition DEFAULT_THEME : string := "dark".
(** [1.45], the binary64 nearest to it *)
Definition DEFAULT_UI_SCALE : float64 := S754_finite false 6530219459687219 (-52).

Definition now_iso (w : world) : string := clock w.

(** [strftime("%Y-%m-%d")] of the same clock reading: the date part of
    [now_iso]'s [YYYY-MM-DD HH:MM:SS]. *)
Definition today_str (w : world) : string := String.substring 0 10 (clock w).

(** ** data_store.py: the document store *)

Definition data_path (w : world) : path := (base_dir w, DATA_FILE).

Definition default_vehicle : json :=
  JDict [("id", JStr "maxine-06-maxima");
         ("name", JStr "Maxine");
         ("year", JInt 2006);
         ("make", JStr "Nissan");
         ("model", JStr "Maxima");
         ("current_mileage", JNull);
         ("items", JList []);
         ("maintenance", JList [])].

Definition default_data (w : world) : json :=
  JDict [("schema", JInt 1);
         ("active_vehicle_id", JStr "maxine-06-maxima");
         ("vehicles", JList [default_vehicle]);
         ("updated_at", JStr (now_iso w))].

(** [json.loads(p.read_text(encoding="utf-8"))]; [None] when either raises. *)
Definition read_json (w : world) (p : path) : option json :=
  match files w !! p with
  | Some (File (JsonText j)) => Some j
  | _ => None
  end.

(** [d[k] = v] on an arbitrary value ([None]: not a dict, [TypeError]). *)
Definition py_setitem (k : string) (v : json) (d : json) : option json :=
  match d with
  | JDict kv => Some (JDict (Dict.set k v kv))
  | _ => None
  end.

(** [d[k]] on an arbitrary value ([None]: [KeyError] or [TypeError]). *)
Definition py_getitem (k : string) (d : json) : option json :=
  match d with
  | JDict kv => Dict.get k kv
  | _ => None
  end.

(** The legacy branch of [load_data]:
    [d = default_data(); d["vehicles"][0]["items"] = raw;
     d["updated_at"] = now_iso(); return d]. *)
Definition load_legacy_list (w : world) (raw : list json) : option json :=
  let d := default_data w in
  vs ← py_getitem "vehicles" d;
  match vs with
  | JList l =>
      v0 ← l !! 0%nat;
      v0' ← py_setitem "items" (JList raw) v0;
      d' ← py_setitem "vehicles" (JList (<[0%nat := v0']> l)) d;
      py_setitem "updated_at" (JStr (now_iso w)) d'
  | _ => None
  end.

(** The body of [for v in raw["vehicles"]]. *)
Definition vehicle_setdefaults (v : json) : option json :=
  v1 ← py_setdefault "current_mileage" JNull v;
  v2 ← py_setdefault "items" (JList []) v1;
  py_setdefault "maintenance" (JList []) v2.

(** [for v in vs: ...]: the loop mutates the elements of a list in place.
    Iterating a string or a dict yields strings, on which [setdefault]
    raises; any other value is not iterable. *)
Definition backfill_vehicles (vs : json) : option json :=
  match vs with
  | JList l => JList <$> mapM vehicle_setdefaults l
  | JStr s => match s with EmptyString => Some vs | _ => None end
  | JDict d => match d with [] => Some vs | _ => None end
  | _ => None
  end.

(** The schema-1 branch of [load_data]. *)
Definition load_schema1 (w : world) (raw : list (string * json)) : option json :=
  let raw := Dict.setdefault "updated_at" (JStr (now_iso w)) raw in
  let raw := Dict.setdefault "active_vehicle_id" (JStr "maxine-06-maxima") raw in
  let raw := Dict.setdefault "vehicles" (JList []) raw in
  vs ← Dict.get "vehicles" raw;
  let raw :=
    if negb (py_truthy vs) then Dict.set "vehicles" (JList [default_vehicle]) raw
    else raw in
  vs ← Dict.get "vehicles" raw;
  vs' ← backfill_vehicles vs;
  Some (JDict (Dict.set "vehicles" vs' raw)).

(** The [try] block of [load_data] after the parse; [None] when it raises or
    falls through without returning. *)
Definition load_data_try (w : world) (raw : json) : option json :=
  match raw with
  | JList l => load_legacy_list w l
  | JDict d => if py_eq_one (Dict.get "schema" d) then load_schema1 w d else None
  | _ => None
  end.

Definition load_data (w : world) : json :=
  let p := data_path w in
  match files w !! p with
  | None => default_data w
  | Some _ =>
      match read_json w p ≫= load_data_try w with
      | Some d => d
      | None => default_data w
      end
  end.

(** ** data_store.py: the atomic writer *)

(** The name [mkstemp(prefix="._mods_", suffix=".json", dir=...)] makes of a
    random token. *)
Definition tmp_name (tok : string) : string := "._mods_" +:+ tok +:+ ".json".

(** [mkstemp] tries the names it draws until one does not exist (it opens
    with [O_EXCL]); [None] when it finds none and raises. *)
Fixpoint mkstemp (dir : string) (toks : list string) (fs : gmap path node)
  : option path :=
  match toks with
  | [] => None
  | tok :: toks' =>
      match fs !! (dir, tmp_name tok) with
      | None => Some (dir, tmp_name tok)
      | Some _ => mkstemp dir toks' fs
      end
  end.

(** [os.replace(src, dst)] *)
Definition fs_replace (src dst : path) (fs : gmap path node) : gmap path node :=
  match fs !! src with
  | Some n => <[dst := n]> (delete src fs)
  | None => fs
  end.

(** The [try] block of [safe_write_json]: write the text, then rename. *)
Definition write_and_replace (tmp p : path) (data : json) (w : world)
  : world * result unit :=
  match dump_fails (env w) with
  | Some partial =>
      (with_files (<[tmp := File (Garbage partial)]> (files w)) w, Raise OSError)
  | None =>
      let w := with_files (<[tmp := File (JsonText data)]> (files w)) w in
      if replace_ok (env w)
      then (with_files (fs_replace tmp p (files w)) w, Ok ())
      else (w, Raise OSError)
  end.

(** The [finally] block: remove the temporary file if it is still there; a
    failure of the removal is swallowed. *)
Definition cleanup_tmp (tmp : path) (w : world) : world :=
  match files w !! tmp with
  | Some _ =>
      if unlink_ok (env w) then with_files (delete tmp (files w)) w else w
  | None => w
  end.

Definition safe_write_json (p : path) (data : json) (w : world)
  : world * result unit :=
  if negb (mkdir_ok (env w)) then (w, Raise OSError)
  else
    let w := with_dirs ({[ p.1 ]} ∪ dirs w) w in
    match mkstemp p.1 (tmp_tokens (env w)) (files w) with
    | None => (w, Raise OSError)
    | Some tmp =>
        let w := with_files (<[tmp := File (Garbage "")]> (files w)) w in
        let '(w, r) := write_and_replace tmp p data w in
        (cleanup_tmp tmp w, r)
    end.

(** ** data_store.py: save *)

(** The caller's documents live in a heap: [save_data] and [save_settings]
    receive a reference and assign through it. *)
Definition loc : Type := nat.

Record state : Type := State {
  heap : gmap loc json;
  disk : world
}.

(** [data["updated_at"] = now_iso(); safe_write_json(path, data)] *)
Definition save_to (p : path) (r : loc) (st : state) : state * result unit :=
  match heap st !! r with
  | Some (JDict d) =>
      let d' := Dict.set "updated_at" (JStr (now_iso (disk st))) d in
      let '(w', res) := safe_write_json p (JDict d') (disk st) in
      (State (<[r := JDict d']> (heap st)) w', res)
  | _ => (st, Raise TypeError)
  end.

Definition save_data (r : loc) (st : state) : state * result unit :=
  save_to (data_path (disk st)) r st.

Definition settings_path (w : world) : path := (base_dir w, SETTINGS_FILE).

Definition save_settings (r : loc) (st : state) : state * result unit :=
  save_to (settings_path (disk st)) r st.

(** ** Strings and numbers of the interpreter *)

(** Strings are byte strings here: the whitespace [str.strip()] removes and
    the digits [int()] reads are the ASCII ones. *)
Definition is_space (c : ascii) : bool :=
  let n := nat_of_ascii c in
  ((9 <=? n) && (n <=? 13) || (28 <=? n) && (n <=? 32))%nat.

Fixpoint lstrip_chars (l : list ascii) : list ascii :=
  match l with
  | c :: l' => if is_space c then lstrip_chars l' else l
  | [] => []
  end.

(** [s.strip()] *)
Definition strip (s : string) : string :=
  string_of_list_ascii
    (rev (lstrip_chars (rev (lstrip_chars (list_ascii_of_string s))))).

(** [s.replace(c, "")] for a one-character [c] *)
Fixpoint remove_char (c : ascii) (s : string) : string :=
  match s with
  | EmptyString => EmptyString
  | String a s' =>
      if Ascii.eqb a c then remove_char c s' else String a (remove_char c s')
  end.

(** [s.replace(c, d)] for one-character [c] and [d] *)
Fixpoint replace_char (c d : ascii) (s : string) : string :=
  match s with
  | EmptyString => EmptyString
  | String a s' => String (if Ascii.eqb a c then d else a) (replace_char c d s')
  end.

(** models.py *)
Definition normalize_int (s : string) : string := strip (remove_char "," s).

Definition normalize_money (s : string) : string :=
  strip (remove_char "," (remove_char "$" s)).

Definition digit_val (c : ascii) : option Z :=
  let n := nat_of_ascii c in
  if ((48 <=? n) && (n <=? 57))%nat then Some (Z.of_nat (n - 48)) else None.

(** The digits of an integer literal: decimal digits, with single
    underscores allowed between two digits. *)
Fixpoint parse_digits (acc : Z) (after_digit : bool) (l : list ascii) : option Z :=
  match l with
  | [] => if after_digit then Some acc else None
  | c :: l' =>
      if Ascii.eqb c "_"
      then (if after_digit then parse_digits acc false l' else None)
      else match digit_val c with
           | Some d => parse_digits (10 * acc + d)%Z true l'
           | None => None
           end
  end.

(** [int(s)] for a string; [None] is [ValueError]. *)
Definition int_of_str (s : string) : option Z :=
  match list_ascii_of_string (strip s) with
  | "-"%char :: l => Z.opp <$> parse_digits 0 false l
  | "+"%char :: l => parse_digits 0 false l
  | l => parse_digits 0 false l
  end.

(** [float(z)] for an integer: the nearest binary64, [OverflowError] when
    there is none. *)
Definition float_of_int (z : Z) : option float64 :=
  match binary_normalize 53 1024 z 0 false with
  | S754_infinity _ => None
  | f => Some f
  end.

(** [int(f)] for a float: truncation; [None] for infinities and NaN. *)
Definition int_of_float (f : float64) : option Z :=
  match f with
  | S754_zero _ => Some 0%Z
  | S754_finite s m e =>
      let a := if (0 <=? e)%Z then (Z.pos m * 2 ^ e)%Z
               else (Z.pos m / 2 ^ (- e))%Z in
      Some (if s then (- a)%Z else a)
  | _ => None
  end.

(** What the model leaves to the interpreter: reading a float literal, and
    the text [repr] prints for a float and for a string. *)
Record interp : Type := Interp {
  float_of_str : string -> option float64;
  float_repr : float64 -> string;
  str_repr : string -> string
}.

Fixpoint join_comma (l : list string) : string :=
  match l with
  | [] => ""
  | [s] => s
  | s :: l' => s +:+ ", " +:+ join_comma l'
  end.

(** [repr(v)] *)
Fixpoint py_repr (I : interp) (v : json) : string :=
  match v with
  | JNull => "None"
  | JBool b => if b then "True" else "False"
  | JInt z => pretty z
  | JFloat f => float_repr I f
  | JStr s => str_repr I s
  | JList l => "[" +:+ join_comma (map (py_repr I) l) +:+ "]"
  | JDict d =>
      "{" +:+ join_comma
                (map (fun kv => match kv with
                                | (k, x) => str_repr I k +:+ ": " +:+ py_repr I x
                                end) d) +:+ "}"
  end.

(** [str(v)] *)
Definition py_str (I : interp) (v : json) : string :=
  match v with
  | JStr s => s
  | _ => py_repr I v
  end.

(** [float(v)]; [None] when it raises. *)
Definition py_float (I : interp) (v : json) : option float64 :=
  match v with
  | JFloat f => Some f
  | JInt z => float_of_int z
  | JBool b => float_of_int (if b then 1 else 0)
  | JStr s => float_of_str I s
  | _ => None
  end.

(** [int(v)]; [None] when it raises. *)
Definition py_int (v : json) : option Z :=
  match v with
  | JInt z => Some z
  | JBool b => Some (if b then 1 else 0)%Z
  | JFloat f => int_of_float f
  | JStr s => int_of_str s
  | _ => None
  end.

(** ** data_store.py: the settings store *)

Definition default_settings (w : world) : list (string * json) :=
  [("schema", JInt 1);
   ("theme", JStr DEFAULT_THEME);
   ("ui_scale", JFloat DEFAULT_UI_SCALE);
   ("font_family", JStr "Segoe UI");
   ("font_size", JInt 13);
   ("autosave_ms", JInt 20000);
   ("car_mode", JBool false);
   ("updated_at", JStr (now_iso w))].

(** [for k in d.keys(): if k in raw: d[k] = raw[k]] *)
Definition merge_known (raw d : list (string * json)) : list (string * json) :=
  fold_left
    (fun acc k => match Dict.get k raw with
                  | Some v => Dict.set k v acc
                  | None => acc
                  end)
    (map fst d) d.

(** [d[k]] for the sanitizers; [None] is [KeyError]. *)
Definition sanitize_theme (d : list (string * json)) : option (list (string * json)) :=
  theme ← Dict.get "theme" d;
  match theme with
  | JStr "dark" | JStr "light" => Some d
  | _ => Some (Dict.set "theme" (JStr DEFAULT_THEME) d)
  end.

Definition sanitize_ui_scale (I : interp) (d : list (string * json))
  : option (list (string * json)) :=
  v ← Dict.get "ui_scale" d;
  match py_float I v with
  | Some f => Some (Dict.set "ui_scale" (JFloat f) d)
  | None => Some (Dict.set "ui_scale" (JFloat DEFAULT_UI_SCALE) d)
  end.

Definition sanitize_autosave (d : list (string * json))
  : option (list (string * json)) :=
  v ← Dict.get "autosave_ms" d;
  match py_int v with
  | Some n => Some (Dict.set "autosave_ms" (JInt n) d)
  | None => Some (Dict.set "autosave_ms" (JInt 20000) d)
  end.

(** The [try] block of [load_settings] after the parse. *)
Definition load_settings_try (I : interp) (w : world) (raw : json)
  : option (list (string * json)) :=
  match raw with
  | JDict raw =>
      if py_eq_one (Dict.get "schema" raw) then
        let d := merge_known raw (default_settings w) in
        let d := Dict.set "updated_at" (JStr (now_iso w)) d in
        d ← sanitize_theme d;
        d ← sanitize_ui_scale I d;
        d ← sanitize_autosave d;
        Some (Dict.set "car_mode"
                (JBool (py_truthy (Dict.get_or "car_mode" (JBool false) d))) d)
      else None
  | _ => None
  end.

Definition load_settings (I : interp) (w : world) : list (string * json) :=
  let p := settings_path w in
  match files w !! p with
  | None => default_settings w
  | Some _ =>
      match read_json w p ≫= load_settings_try I w with
      | Some d => d
      | None => default_settings w
      end
  end.

(** ** ui_main.py: the maintenance due computation *)

(** The digits of a number, last digit first, with a comma after every
    third one that has a digit after it. *)
Fixpoint commas_rev (n : nat) (l : list ascii) : list ascii :=
  match l with
  | [] => []
  | c :: l' =>
      if (n =? 3)%nat then ","%char :: c :: commas_rev 1 l'
      else c :: commas_rev (S n) l'
  end.

(** [f"{z:,}"] *)
Definition fmt_commas (z : Z) : string :=
  (if (z <? 0)%Z then "-" else "") +:+
  string_of_list_ascii
    (rev (commas_rev 0 (rev (list_ascii_of_string (pretty (Z.abs z)))))).

(** [isinstance(cur, int)], with the integer: [bool] is a subclass of [int]. *)
Definition as_int (cur : option json) : option Z :=
  match cur with
  | Some (JInt c) => Some c
  | Some (JBool b) => Some (if b then 1 else 0)%Z
  | _ => None
  end.

(** The due and remaining columns [_refresh_maintenance_list] computes for
    one task [m], with [cur = self.vehicle.get("current_mileage")]. *)
Definition due_columns (I : interp) (cur : option json) (m : list (string * json))
  : string * string :=
  let last_miles := Dict.get_or "last_miles" (JStr "") m in
  let interval := Dict.get_or "interval_miles" (JStr "") m in
  if negb (String.eqb (strip (py_str I last_miles)) "")
     && negb (String.eqb (strip (py_str I interval)) "")
  then
    match int_of_str (normalize_int (py_str I last_miles)),
          int_of_str (normalize_int (py_str I interval)) with
    | Some a, Some b =>
        let due_val := (a + b)%Z in
        let due_miles := fmt_commas due_val in
        match as_int cur with
        | Some c =>
            let remaining_val := (due_val - c)%Z in
            (due_miles,
             if (0 <=? remaining_val)%Z then fmt_commas remaining_val
             else "OVERDUE " +:+ fmt_commas (Z.abs remaining_val))
        | None => (due_miles, "")
        end
    | _, _ => ("", "")
    end
  else ("", "").

(** ** ui_main.py: mark done *)

(** The application object, as far as the maintenance actions use it.
    [self.vehicle] is an alias of one of the dicts of
    [self.data["vehicles"]]: the model keeps its index there. *)
Record app : Type := App {
  data : loc;
  vehicle : nat;
  dirty : bool;
  last_saved_at : option string;
  dialogs : list (string * string)
}.

Definition showinfo (title msg : string) (a : app) : app :=
  App (data a) (vehicle a) (dirty a) (last_saved_at a) (dialogs a ++ [(title, msg)]).

(** [self.vehicle] *)
Definition get_vehicle (a : app) (st : state) : option (list (string * json)) :=
  match heap st !! data a with
  | Some (JDict d) =>
      match Dict.get "vehicles" d with
      | Some (JList vs) =>
          match vs !! vehicle a with
          | Some (JDict v) => Some v
          | _ => None
          end
      | _ => None
      end
  | _ => None
  end.

(** An assignment through [self.vehicle]. *)
Definition put_vehicle (a : app) (v : list (string * json)) (st : state) : state :=
  match heap st !! data a with
  | Some (JDict d) =>
      match Dict.get "vehicles" d with
      | Some (JList vs) =>
          State (<[data a := JDict (Dict.set "vehicles"
                                      (JList (<[vehicle a := JDict v]> vs)) d)]>
                   (heap st))
                (disk st)
      | _ => st
      end
  | _ => st
  end.

(** [l[i]] with Python's negative indices; [None] is [IndexError]. *)
Definition py_index (i : Z) (l : list json) : option nat :=
  let n := Z.of_nat (length l) in
  if ((0 <=? i) && (i <? n))%Z then Some (Z.to_nat i)
  else if ((- n <=? i) && (i <? 0))%Z then Some (Z.to_nat (n + i))
  else None.

(** [self._save(force)] *)
Definition app_save (force : bool) (a : app) (st : state)
  : app * state * result unit :=
  if negb (dirty a) && negb force then (a, st, Ok ())
  else
    match save_data (data a) st with
    | (st', Ok _) =>
        (App (data a) (vehicle a) false (Some (now_iso (disk st'))) (dialogs a),
         st', Ok ())
    | (st', Raise e) => (a, st', Raise e)
    end.

(** The three assignments of [mark_maintenance_done] to the task. *)
Definition stamp_done (I : interp) (cur : json) (w : world)
  (task : list (string * json)) : list (string * json) :=
  let task := Dict.set "last_date" (JStr (today_str w)) task in
  let task := Dict.set "last_miles" (JStr (py_str I cur)) task in
  Dict.set "updated_at" (JStr (now_iso w)) task.

(** [mark_maintenance_done], with the selection of the tree as argument. *)
Definition mark_maintenance_done (I : interp) (sel : list string) (a : app)
  (st : state) : app * state * result unit :=
  match sel with
  | [iid] =>
      match int_of_str iid with
      | None => (a, st, Raise ValueError)
      | Some idx =>
          match get_vehicle a st with
          | None => (a, st, Raise AttributeError)
          | Some v =>
              match Dict.get "current_mileage" v with
              | None | Some JNull =>
                  (showinfo "Set current mileage"
                     "Set current mileage at the top first." a, st, Ok ())
              | Some cur =>
                  (* self.maintenance: self.vehicle.setdefault("maintenance", []) *)
                  let v := Dict.setdefault "maintenance" (JList []) v in
                  let st := put_vehicle a v st in
                  match Dict.get "maintenance" v with
                  | Some (JList ms) =>
                      match py_index idx ms with
                      | None => (a, st, Raise IndexError)
                      | Some i =>
                          match ms !! i with
                          | Some (JDict task) =>
                              let task := stamp_done I cur (disk st) task in
                              let v := Dict.set "maintenance"
                                         (JList (<[i := JDict task]> ms)) v in
                              let st := put_vehicle a v st in
                              (* self._mark_dirty(); self._save(force=False) *)
                              let a := App (data a) (vehicle a) true
                                         (last_saved_at a) (dialogs a) in
                              app_save false a st
                          | _ => (a, st, Raise TypeError)
                          end
                      end
                  | _ => (a, st, Raise TypeError)
                  end
              end
          end
      end
  | _ => (showinfo "Select one" "Select one maintenance row first." a, st, Ok ())
  end.

(** ** ui_editors.py and maxine_mods.py: the attachment path allocator *)

(** The components of a POSIX path, last one first. *)
Fixpoint components_rev (acc : list (list ascii)) (cur : list ascii)
  (l : list ascii) : list (list ascii) :=
  match l with
  | [] => rev cur :: acc
  | c :: l' =>
      if Ascii.eqb c "/" then components_rev (rev cur :: acc) [] l'
      else components_rev acc (c :: cur) l'
  end.

Definition is_dot_or_empty (c : list ascii) : bool :=
  match c with
  | [] => true
  | [d] => Ascii.eqb d "."
  | _ => false
  end.

(** [Path(src_path).name]: the last component, empty and ["."] components
    dropped. *)
Definition path_name (src_path : string) : list ascii :=
  match filter (fun c => negb (is_dot_or_empty c))
               (components_rev [] [] (list_ascii_of_string src_path)) with
  | c :: _ => c
  | [] => []
  end.

(** [os.path.basename(src_path)]: what follows the last slash. *)
Definition basename (src_path : string) : list ascii :=
  match components_rev [] [] (list_ascii_of_string src_path) with
  | c :: _ => c
  | [] => []
  end.

(** A name read from its end up to its last dot: what follows the dot and
    what precedes it, both reversed. *)
Fixpoint break_dot (r : list ascii) : option (list ascii * list ascii) :=
  match r with
  | [] => None
  | c :: r' =>
      if Ascii.eqb c "." then Some ([], r')
      else match break_dot r' with
           | Some (a, b) => Some (c :: a, b)
           | None => None
           end
  end.

(** [(Path.stem, Path.suffix)]: the suffix starts at the last dot, which is
    neither the first nor the last character of the name. *)
Definition stem_suffix (name : list ascii) : string * string :=
  match break_dot (rev name) with
  | Some (a, b) =>
      match a, b with
      | _ :: _, _ :: _ =>
          (string_of_list_ascii (rev b), string_of_list_ascii ("."%char :: rev a))
      | _, _ => (string_of_list_ascii name, "")
      end
  | None => (string_of_list_ascii name, "")
  end.

(** [os.path.splitext] of a base name: the extension starts at the last
    dot, unless only dots precede it. *)
Definition splitext (name : list ascii) : string * string :=
  match break_dot (rev name) with
  | Some (a, b) =>
      if forallb (fun c => Ascii.eqb c ".") b
      then (string_of_list_ascii name, "")
      else (string_of_list_ascii (rev b), string_of_list_ascii ("."%char :: rev a))
  | None => (string_of_list_ascii name, "")
  end.

(** [now_iso().replace(":", "").replace(" ", "_").replace("-", "")], which is
    also what [strftime("%Y%m%d_%H%M%S")] prints for the same reading. *)
Definition stamp (w : world) : string :=
  remove_char "-" (replace_char " " "_" (remove_char ":" (now_iso w))).

(** [f"{name}_{stamp}{ext}"] *)
Definition first_candidate (name stmp ext : string) : string :=
  name +:+ "_" +:+ stmp +:+ ext.

(** [f"{name}_{stamp}_{i}{ext}"] *)
Definition numbered_candidate (name stmp ext : string) (i : nat) : string :=
  name +:+ "_" +:+ stmp +:+ "_" +:+ pretty i +:+ ext.

(** [while candidate.exists(): candidate = ...; i += 1], with the number of
    tests it may make. *)
Fixpoint next_free (fuel : nat) (fs : gmap path node) (dest name stmp ext : string)
  (candidate : path) (i : nat) : option path :=
  match fuel with
  | O => None
  | S fuel' =>
      match fs !! candidate with
      | None => Some candidate
      | Some _ =>
          next_free fuel' fs dest name stmp ext
            (dest, numbered_candidate name stmp ext i) (S i)
      end
  end.

(** The loop of both allocators; a filesystem with [n] entries answers
    within [n + 2] tests. *)
Definition allocate (w : world) (dest name ext : string) : option path :=
  next_free (size (files w) + 2) (files w) dest name (stamp w) ext
    (dest, first_candidate name (stamp w) ext) 1.

(** ui_editors.py *)
Definition unique_dest_path (w : world) (dest_folder src_path : string)
  : option path :=
  let '(name, ext) := stem_suffix (path_name src_path) in
  allocate w dest_folder name ext.

(** maxine_mods.py *)
Definition unique_dest_path_legacy (w : world) (dest_folder src_path : string)
  : option path :=
  let '(name, ext) := splitext (basename src_path) in
  allocate w dest_folder name ext.


(** ** The shapes the properties speak of *)

(** The file at the document path is one [load_data] falls back on: missing,
    unreadable, not JSON, JSON of the wrong top-level shape, or a mapping
    whose schema tag is missing or not equal to 1. *)
Definition load_failure (w : world) : Prop :=
  match files w !! data_path w with
  | None => True
  | Some Unreadable => True
  | Some (File (Garbage _)) => True
  | Some (File (JsonText j)) =>
      match j with
      | JList _ => False
      | JDict d => py_eq_one (Dict.get "schema" d) = false
      | _ => True
      end
  end.

(** A vehicle carries the three backfilled keys. *)
Definition has_vehicle_keys (v : json) : bool :=
  match v with
  | JDict f =>
      Dict.has "current_mileage" f && Dict.has "items" f && Dict.has "maintenance" f
  | _ => false
  end.

Definition is_list (v : json) : bool :=
  match v with JList _ => true | _ => false end.

Definition is_int_or_null (v : json) : bool :=
  match v with JInt _ | JNull => true | _ => false end.


(** A vehicle as found on disk holds values of their types under those of
    the three keys it has. *)
Definition typed_where_present (v : json) : bool :=
  match v with
  | JDict f =>
      match Dict.get "current_mileage" f with
      | Some c => is_int_or_null c | None => true end
      && match Dict.get "items" f with Some i => is_list i | None => true end
      && match Dict.get "maintenance" f with Some m => is_list m | None => true end
  | _ => true
  end.

(** A document whose vehicles sequence is non-empty, with [ok] of every
    vehicle. *)
Definition vehicles_all (ok : json -> bool) (doc : json) : bool :=
  match doc with
  | JDict d =>
      match Dict.get "vehicles" d with
      | Some (JList (v :: vs)) => forallb ok (v :: vs)
      | _ => false
      end
  | _ => false
  end.


(** A well-formed vehicle carries its identifier and the three keys. *)
Definition well_formed_vehicle (v : json) : bool :=
  match v with
  | JDict f => Dict.has "id" f && has_vehicle_keys v
  | _ => false
  end.

(** A well-formed document: a mapping with schema tag 1 that names its
    active vehicle and has a non-empty sequence of well-formed vehicles. *)
Definition well_formed (d : list (string * json)) : bool :=
  py_eq_one (Dict.get "schema" d)
  && Dict.has "active_vehicle_id" d
  && vehicles_all well_formed_vehicle (JDict d).

(** ** Concrete worlds for the examples *)

(** An operating system that lets every call of a write succeed. *)
Definition calm : oracle := Oracle true ["k3x9q2ab"] None true true.

Definition app_dir : string := "/opt/maxine".

(** A world with [n] at the document path and nothing else. *)
Definition world_with (clk : string) (n : node) : world :=
  World app_dir clk ∅ {[ (app_dir, DATA_FILE) := n ]} calm.

(** The legacy file of the spec: a bare list of items. *)
Definition legacy_items : list json := [JDict [("name", JStr "Coilovers")]].

Definition legacy_world : world :=
  world_with "2026-11-04 10:00:00" (File (JsonText (JList legacy_items))).

(** A schema-1 file whose one vehicle carries the three keys with values of
    other types. *)
Definition mistyped_vehicle : json :=
  JDict [("id", JStr "v1");
         ("current_mileage", JStr "abc");
         ("items", JNull);
         ("maintenance", JStr "oops")].

Definition mistyped_world : world :=
  world_with "2026-11-04 10:00:00"
    (File (JsonText (JDict [("schema", JInt 1);
                            ("vehicles", JList [mistyped_vehicle])]))).

(** A document in memory, stamped in the very second the clock shows. *)
Definition stamped_fields : list (string * json) :=
  [("schema", JInt 1);
   ("active_vehicle_id", JStr "maxine-06-maxima");
   ("vehicles", JList [default_vehicle]);
   ("updated_at", JStr "2026-11-04 10:00:00")].

Definition stamped_state : state :=
  State {[ 0%nat := JDict stamped_fields ]}
        (World app_dir "2026-11-04 10:00:00" ∅ ∅ calm).

(** An operating system on which writing the text fails half way and the
    removal of the temporary file fails too. *)
Definition stubborn : oracle := Oracle true ["k3x9q2ab"] (Some "{") true false.

Definition stubborn_world : world :=
  World app_dir "2026-11-04 10:00:07" ∅
        {[ (app_dir, DATA_FILE) := File (JsonText (JDict stamped_fields)) ]}
        stubborn.

Definition stubborn_state : state :=
  State {[ 0%nat := JDict stamped_fields ]} stubborn_world.

(** What a schema-1 settings file stores under [ui_scale], if anything. *)
Definition stored_ui_scale (w : world) : option json :=
  match read_json w (settings_path w) with
  | Some (JDict raw) =>
      if py_eq_one (Dict.get "schema" raw) then Dict.get "ui_scale" raw else None
  | _ => None
  end.

(** A float above zero. *)
Definition float_positive (f : float64) : bool :=
  match f with
  | S754_finite false _ _ | S754_infinity false => true
  | _ => false
  end.

(** [-2.0] *)
Definition minus_two : float64 := S754_finite true 4503599627370496 (-51).

(** A settings file with a negative scale: [{"schema": 1, "ui_scale": -2}]. *)
Definition negative_scale_world : world :=
  World app_dir "2026-11-04 10:00:00" ∅
        {[ (app_dir, SETTINGS_FILE) :=
             File (JsonText (JDict [("schema", JInt 1); ("ui_scale", JInt (-2))])) ]}
        calm.

(** An interpreter for the closed examples: they reach none of its three
    functions and hold for every interpreter. *)
Definition bare_interp : interp :=
  Interp (fun _ => None) (fun _ => "") (fun s => s).

(** A running application: one vehicle at 150000 miles with one task. *)
Definition oil_change : list (string * json) :=
  [("task", JStr "Oil change");
   ("last_date", JStr "2026-05-01");
   ("last_miles", JStr "147000");
   ("interval_miles", JStr "3000");
   ("notes", JStr "");
   ("created_at", JStr "2026-05-01 09:00:00");
   ("updated_at", JStr "2026-05-01 09:00:00")].

Definition garage_fields (mileage : json) : list (string * json) :=
  [("schema", JInt 1);
   ("active_vehicle_id", JStr "maxine-06-maxima");
   ("vehicles",
    JList [JDict [("id", JStr "maxine-06-maxima");
                  ("name", JStr "Maxine");
                  ("current_mileage", mileage);
                  ("items", JList []);
                  ("maintenance", JList [JDict oil_change])]]);
   ("updated_at", JStr "2026-11-03 18:30:00")].

Definition garage_state (mileage : json) : state :=
  State {[ 0%nat := JDict (garage_fields mileage) ]}
        (World app_dir "2026-11-04 10:00:00" ∅ ∅ calm).

Definition garage_app : app := App 0%nat 0%nat false None [].



(** A folder that holds an attachment made in this very second. *)
Definition crowded_world : world :=
  World app_dir "2026-11-04 10:00:00" ∅
        {[ ("/opt/maxine/maxine_assets", "receipt_20261104_100000.pdf")
             := File (Garbage "%PDF") ]}
        calm.

(** ** Closed forms and shapes for the further properties *)

(** What the theme check keeps of a value. *)
Definition keep_theme (t : json) : json :=
  match t with
  | JStr "dark" | JStr "light" => t
  | _ => JStr DEFAULT_THEME
  end.

(** The settings a schema-1 mapping [raw] loads as, field by field. *)
Definition settings_of (I : interp) (now : string) (raw : list (string * json))
  : list (string * json) :=
  [("schema", Dict.get_or "schema" (JInt 1) raw);
   ("theme", keep_theme (Dict.get_or "theme" (JStr DEFAULT_THEME) raw));
   ("ui_scale",
    JFloat (default DEFAULT_UI_SCALE
              (py_float I (Dict.get_or "ui_scale" (JFloat DEFAULT_UI_SCALE) raw))));
   ("font_family", Dict.get_or "font_family" (JStr "Segoe UI") raw);
   ("font_size", Dict.get_or "font_size" (JInt 13) raw);
   ("autosave_ms",
    JInt (default 20000%Z (py_int (Dict.get_or "autosave_ms" (JInt 20000) raw))));
   ("car_mode", JBool (py_truthy (Dict.get_or "car_mode" (JBool false) raw)));
   ("updated_at", JStr now)].

(** A settings file that holds [raw]. *)
Definition settings_world (clk : string) (raw : list (string * json)) : world :=
  World app_dir clk ∅ {[ (app_dir, SETTINGS_FILE) := File (JsonText (JDict raw)) ]}
        calm.

(** The settings file of the spec's example, with a key nobody knows. *)
Definition blue_settings : list (string * json) :=
  [("schema", JInt 1); ("theme", JStr "blue"); ("autosave_ms", JStr " 5_000 ");
   ("car_mode", JInt 1); ("colour", JStr "red")].

(** The settings file written back after a load of [blue_settings]. *)
Definition resaved_settings_world : world :=
  settings_world "2026-11-05 08:00:00"
    (load_settings bare_interp (settings_world "2026-11-04 10:00:00" blue_settings)).

(** What every loaded document has: a schema tag equal to 1, the active
    vehicle, the stamp, and a non-empty sequence of vehicles that carry the
    three backfilled keys. *)
Definition loaded_shape (d : list (string * json)) : bool :=
  py_eq_one (Dict.get "schema" d)
  && Dict.has "active_vehicle_id" d
  && Dict.has "updated_at" d
  && vehicles_all has_vehicle_keys (JDict d).

(** ** ui_main.py: the active vehicle *)

(** [f == z] for a float and an integer: Python compares the exact values. *)
Definition float_eq_Z (f : float64) (z : Z) : bool :=
  match f with
  | S754_zero _ => (z =? 0)%Z
  | S754_finite s m e =>
      let sm := if s then Z.neg m else Z.pos m in
      if (0 <=? e)%Z then (z =? sm * 2 ^ e)%Z
      else ((sm mod 2 ^ (- e) =? 0) && (z =? sm / 2 ^ (- e)))%Z
  | _ => false
  end.

(** A value as a number: an integer ([bool] included) or a float. *)
Definition as_number (v : json) : option (Z + float64) :=
  match v with
  | JInt z => Some (inl z)
  | JBool b => Some (inl (if b then 1 else 0)%Z)
  | JFloat f => Some (inr f)
  | _ => None
  end.

Definition number_eq (x y : Z + float64) : bool :=
  match x, y with
  | inl a, inl b => (a =? b)%Z
  | inr f, inr g => SFeqb f g
  | inl a, inr g => float_eq_Z g a
  | inr f, inl b => float_eq_Z f b
  end.

(** [a == b]: numbers by value, strings and lists element by element, dicts
    key by key whatever the order. *)
Fixpoint py_eq (a b : json) {struct a} : bool :=
  match a with
  | JNull => match b with JNull => true | _ => false end
  | JStr s => match b with JStr t => String.eqb s t | _ => false end
  | JList l =>
      match b with
      | JList m =>
          (fix all2 (l m : list json) {struct l} : bool :=
             match l, m with
             | [], [] => true
             | x :: l', y :: m' => py_eq x y && all2 l' m'
             | _, _ => false
             end) l m
      | _ => false
      end
  | JDict d =>
      match b with
      | JDict e =>
          (length d =? length e)%nat
          && (fix all (d : list (string * json)) : bool :=
                match d with
                | [] => true
                | (k, x) :: d' =>
                    match Dict.get k e with
                    | Some y => py_eq x y
                    | None => false
                    end && all d'
                end) d
      | _ => false
      end
  | _ =>
      match as_number a, as_number b with
      | Some x, Some y => number_eq x y
      | _, _ => false
      end
  end.

(** [d.get(k)], with [None] for a key that is not there. *)
Definition py_get (k : string) (d : list (string * json)) : json :=
  Dict.get_or k JNull d.

(** The loop of [_get_active_vehicle] from position [i] on: the position of
    the first vehicle whose id equals [vid], if any; a vehicle that is not
    a dict has no [get]. *)
Fixpoint find_vehicle (vid : json) (l : list json) (i : nat) : result (option nat) :=
  match l with
  | [] => Ok None
  | JDict f :: l' =>
      if py_eq (py_get "id" f) vid then Ok (Some i)
      else find_vehicle vid l' (S i)
  | _ :: _ => Raise AttributeError
  end.

(** [_get_active_vehicle], as the position of the vehicle it returns in
    [self.data["vehicles"]]. *)
Definition get_active_vehicle (doc : list (string * json)) : result nat :=
  let vid := py_get "active_vehicle_id" doc in
  match Dict.get_or "vehicles" (JList []) doc with
  | JList l =>
      match find_vehicle vid l 0 with
      | Ok (Some i) => Ok i
      | Ok None =>
          (* return self.data["vehicles"][0] *)
          match Dict.get "vehicles" doc with
          | Some (JList (_ :: _)) => Ok 0%nat
          | Some _ => Raise IndexError
          | None => Raise KeyError
          end
      | Raise e => Raise e
      end
  | JStr EmptyString => Raise IndexError
  | JDict [] => Raise KeyError
  | JStr _ | JDict _ => Raise AttributeError
  | _ => Raise TypeError
  end.

(** The data part of [ModTrackerApp.__init__]: the document is loaded into
    a fresh object [r] and [self.vehicle] is resolved. *)
Definition app_init (r : loc) (st : state) : result (app * state) :=
  match load_data (disk st) with
  | JDict d =>
      match get_active_vehicle d with
      | Ok i => Ok (App r i false None [],
                    State (<[r := JDict d]> (heap st)) (disk st))
      | Raise e => Raise e
      end
  | _ => Raise AttributeError
  end.

(** A decimal digit. *)
Definition is_digit (c : ascii) : bool :=
  match digit_val c with Some _ => true | None => false end.

(** The characters of the decimal text of an integer: digits and the
    sign. *)
Definition is_digit_or_minus (c : ascii) : bool :=
  is_digit c || Ascii.eqb c "-".

(** * Properties *)

Example fmt_commas_ex :
  fmt_commas 103000 = "103,000" /\ fmt_commas (-1234567) = "-1,234,567"
  /\ fmt_commas 0 = "0" /\ fmt_commas 999 = "999" /\ fmt_commas 1000 = "1,000".
Proof. vm_compute. repeat split. Qed.

Example int_of_str_ex :
  int_of_str " 1_000 " = Some 1000%Z /\ int_of_str "-12" = Some (-12)%Z
  /\ int_of_str "1__0" = None /\ int_of_str "" = None /\ int_of_str "12a" = None
  /\ int_of_str "+7" = Some 7%Z /\ int_of_str "None" = None
  /\ normalize_int " 1,234 " = "1234".
Proof. vm_compute. repeat split. Qed.

Example stem_suffix_ex :
  stem_suffix (path_name "/a/b/photo.tar.gz") = ("photo.tar", ".gz")
  /\ stem_suffix (path_name "dir/.bashrc") = (".bashrc", "")
  /\ stem_suffix (path_name "dir/name./") = ("name.", "")
  /\ splitext (basename "/a/b/photo.tar.gz") = ("photo.tar", ".gz")
  /\ splitext (basename "dir/..x") = ("..x", "")
  /\ splitext (basename "dir/a.") = ("a", ".")
  /\ splitext (basename "dir/") = ("", "").
Proof. vm_compute. repeat split. Qed.

(** ** Dicts *)

Module DictFacts.

Lemma get_set_eq k v d : Dict.get k (Dict.set k v d) = Some v.
Proof.
  induction d as [|[k' v'] d IH]; simpl.
  - by rewrite String.eqb_refl.
  - destruct (String.eqb k k') eqn:E; simpl; rewrite ?String.eqb_refl, ?E; done.
Qed.

Lemma get_set_ne k k' v d :
  k <> k' -> Dict.get k' (Dict.set k v d) = Dict.get k' d.
Proof.
  intros Hne. induction d as [|[k0 v0] d IH]; simpl.
  - apply String.eqb_neq in Hne. rewrite String.eqb_sym in Hne. by rewrite Hne.
  - destruct (String.eqb k k0) eqn:E; simpl.
    + apply String.eqb_eq in E. subst k0.
      assert (String.eqb k' k = false) as ->; [|done].
      apply String.eqb_neq. congruence.
    + by rewrite IH.
Qed.

Lemma set_id k v d : Dict.get k d = Some v -> Dict.set k v d = d.
Proof.
  induction d as [|[k' v'] d IH]; simpl; [done|].
  destruct (String.eqb k k') eqn:E.
  - apply String.eqb_eq in E. by intros [= ->]; subst.
  - intros H. by rewrite IH.
Qed.

Lemma has_true k d : Dict.has k d = true <-> is_Some (Dict.get k d).
Proof.
  unfold Dict.has. destruct (Dict.get k d) as [x|]; split; intros H.
  - by exists x.
  - done.
  - done.
  - by destruct H.
Qed.

Lemma has_set k k' v d :
  Dict.has k' (Dict.set k v d) = (String.eqb k k' || Dict.has k' d)%bool.
Proof.
  unfold Dict.has. destruct (String.eqb k k') eqn:E.
  - apply String.eqb_eq in E. subst. by rewrite get_set_eq.
  - apply String.eqb_neq in E. by rewrite get_set_ne.
Qed.

Lemma setdefault_present k v d :
  Dict.has k d = true -> Dict.setdefault k v d = d.
Proof. unfold Dict.setdefault. by intros ->. Qed.

Lemma has_setdefault k k' v d :
  Dict.has k' (Dict.setdefault k v d) = (String.eqb k k' || Dict.has k' d)%bool.
Proof.
  unfold Dict.setdefault. destruct (Dict.has k d) eqn:E.
  - destruct (String.eqb k k') eqn:E'; [|done].
    apply String.eqb_eq in E'. by subst.
  - apply has_set.
Qed.

Lemma get_setdefault k k' v d :
  Dict.get k' (Dict.setdefault k v d) =
  match Dict.get k' d with
  | Some x => Some x
  | None => if String.eqb k k' then Some v else None
  end.
Proof.
  unfold Dict.setdefault, Dict.has.
  destruct (Dict.get k d) eqn:E.
  - destruct (Dict.get k' d) eqn:E'; [done|].
    destruct (String.eqb k k') eqn:Ek; [|done].
    apply String.eqb_eq in Ek. congruence.
  - destruct (String.eqb k k') eqn:Ek.
    + apply String.eqb_eq in Ek. subst. by rewrite get_set_eq, E.
    + apply String.eqb_neq in Ek. rewrite get_set_ne by done.
      by destruct (Dict.get k' d).
Qed.

End DictFacts.

(** ** Loading the document *)

Lemma load_data_missing w :
  files w !! data_path w = None -> load_data w = default_data w.
Proof. unfold load_data. by intros ->. Qed.

Lemma load_data_parsed w j :
  files w !! data_path w = Some (File (JsonText j)) ->
  load_data w = default (default_data w) (load_data_try w j).
Proof.
  intros H. unfold load_data, read_json. rewrite H. simpl.
  by destruct (load_data_try w j).
Qed.

Lemma load_data_unparsed w n :
  files w !! data_path w = Some n ->
  (forall j, n <> File (JsonText j)) ->
  load_data w = default_data w.
Proof.
  intros H Hn. unfold load_data, read_json. rewrite H.
  destruct n as [[t|j]|]; try done. by destruct (Hn j).
Qed.

(** C4: a file that holds a bare list [L] loads as the default document with
    [L] as the items of its single vehicle: exactly one vehicle, empty
    maintenance, and every other field as in the default document. *)
Theorem load_data_legacy_list (w : world) (L : list json) :
  files w !! data_path w = Some (File (JsonText (JList L))) ->
  load_data w =
    JDict [("schema", JInt 1);
           ("active_vehicle_id", JStr "maxine-06-maxima");
           ("vehicles",
            JList [JDict [("id", JStr "maxine-06-maxima");
                          ("name", JStr "Maxine");
                          ("year", JInt 2006);
                          ("make", JStr "Nissan");
                          ("model", JStr "Maxima");
                          ("current_mileage", JNull);
                          ("items", JList L);
                          ("maintenance", JList [])]]);
           ("updated_at", JStr (now_iso w))]
  /\ (forall k, k <> "vehicles" ->
        py_getitem k (load_data w) = py_getitem k (default_data w))
  /\ (exists v, py_getitem "vehicles" (load_data w) = Some (JList [v])
        /\ py_getitem "items" v = Some (JList L)
        /\ forall k, k <> "items" -> py_getitem k v = py_getitem k default_vehicle).
Proof.
  intros H. rewrite (load_data_parsed _ _ H). simpl. split; [done|]. split.
  - intros k Hk. simpl.
    destruct (String.eqb k "vehicles") eqn:E; [|done].
    by apply String.eqb_eq in E.
  - eexists. split; [done|]. split; [done|].
    intros k Hk. simpl.
    destruct (String.eqb k "items") eqn:E; [|done].
    by apply String.eqb_eq in E.
Qed.

Lemma load_data_legacy_list_witness :
  py_getitem "vehicles" (load_data legacy_world)
  = Some (JList [JDict [("id", JStr "maxine-06-maxima");
                        ("name", JStr "Maxine");
                        ("year", JInt 2006);
                        ("make", JStr "Nissan");
                        ("model", JStr "Maxima");
                        ("current_mileage", JNull);
                        ("items", JList legacy_items);
                        ("maintenance", JList [])]]).
Proof.
  destruct (load_data_legacy_list legacy_world legacy_items) as [-> _];
    reflexivity.
Defined.

(** C2: [load_data] is total (it returns a document for every world and
    raises nothing), and on a missing, unreadable or malformed file, on JSON
    of the wrong top-level shape and on a mapping whose schema tag is missing
    or not 1, it returns the default document. *)
Theorem load_data_fallback (w : world) :
  (exists d, load_data w = JDict d)
  /\ (load_failure w -> load_data w = default_data w).
Proof.
  split.
  - unfold load_data.
    destruct (files w !! data_path w) as [n|]; [|by eexists].
    destruct (read_json w (data_path w) ≫= load_data_try w) as [doc|] eqn:E;
      [|by eexists].
    destruct (read_json w (data_path w)) as [j|]; [|done]. simpl in E.
    destruct j as [| | | | |l|d]; try done.
    + inversion E. by eexists.
    + simpl in E. destruct (py_eq_one _); [|done].
      unfold load_schema1 in E.
      repeat (match type of E with
              | (?m ≫= _) = Some _ => destruct m; simpl in E; [|done]
              end).
      inversion E. by eexists.
  - unfold load_failure. intros H.
    destruct (files w !! data_path w) as [[[t|j]|]|] eqn:E.
    + by apply (load_data_unparsed _ _ E).
    + rewrite (load_data_parsed _ _ E).
      destruct j; simpl; try done. by rewrite H.
    + by apply (load_data_unparsed _ _ E).
    + by apply load_data_missing.
Qed.

(** The backfill of one vehicle. *)
Lemma vehicle_setdefaults_inv v v' :
  vehicle_setdefaults v = Some v' ->
  exists f, v = JDict f
    /\ v' = JDict (Dict.setdefault "maintenance" (JList [])
                    (Dict.setdefault "items" (JList [])
                       (Dict.setdefault "current_mileage" JNull f))).
Proof.
  destruct v; try done. simpl. intros [= <-]. by eexists.
Qed.

Lemma vehicle_setdefaults_keys v v' :
  vehicle_setdefaults v = Some v' -> has_vehicle_keys v' = true.
Proof.
  intros (f & -> & ->)%vehicle_setdefaults_inv. simpl.
  rewrite !DictFacts.has_setdefault. simpl.
  by rewrite ?orb_true_r.
Qed.


Lemma mapM_forallb (ok : json -> bool) l l' :
  mapM vehicle_setdefaults l = Some l' ->
  (forall v v', vehicle_setdefaults v = Some v' -> In v l -> ok v' = true) ->
  forallb ok l' = true.
Proof.
  intros H%mapM_Some_1 Hok. induction H as [|v v' l l' Hv _ IH]; [done|].
  simpl. rewrite (Hok v v' Hv) by (by left). simpl.
  apply IH. intros x x' Hx Hin. apply (Hok x x' Hx). by right.
Qed.

(** What the schema-1 branch returns: the mapping with its vehicles
    backfilled, the vehicles being those of the file or, when the file has
    none, the default one. *)
Lemma load_schema1_inv w raw doc :
  load_schema1 w raw = Some doc ->
  exists d v l l',
    doc = JDict d
    /\ Dict.get "vehicles" d = Some (JList l')
    /\ mapM vehicle_setdefaults (v :: l) = Some l'
    /\ (v :: l = [default_vehicle]
        \/ Dict.get "vehicles" raw = Some (JList (v :: l))).
Proof.
  unfold load_schema1.
  set (raw3 := Dict.setdefault "vehicles" _ _).
  assert (Dict.get "vehicles" raw3
          = Some (default (JList []) (Dict.get "vehicles" raw))) as ->.
  { unfold raw3. rewrite !DictFacts.get_setdefault. simpl.
    by destruct (Dict.get "vehicles" raw). }
  simpl. set (vs := default (JList []) (Dict.get "vehicles" raw)).
  destruct (py_truthy vs) eqn:T; simpl.
  - assert (Dict.get "vehicles" raw3 = Some vs) as ->.
    { unfold raw3. rewrite !DictFacts.get_setdefault. simpl.
      unfold vs. by destruct (Dict.get "vehicles" raw). }
    simpl. destruct vs as [| | | |s|l|d] eqn:Evs; try done; simpl.
    + by destruct s.
    + destruct (mapM vehicle_setdefaults l) as [l'|] eqn:M; [|done].
      simpl. intros [= <-]. destruct l as [|v l]; [done|].
      exists (Dict.set "vehicles" (JList l') raw3), v, l, l'.
      rewrite DictFacts.get_set_eq. repeat split; try done.
      right. unfold vs in Evs. destruct (Dict.get "vehicles" raw); [|done].
      simpl in Evs. by subst.
    + by destruct d.
  - rewrite DictFacts.get_set_eq. simpl. intros [= <-].
    eexists _, default_vehicle, [], _.
    rewrite DictFacts.get_set_eq. repeat split; try done. by left.
Qed.

Lemma load_data_try_vehicles w j doc :
  load_data_try w j = Some doc ->
  exists d v l l',
    doc = JDict d
    /\ Dict.get "vehicles" d = Some (JList l')
    /\ mapM vehicle_setdefaults (v :: l) = Some l'
    /\ (typed_where_present v = true /\ l = []
        \/ exists raw, j = JDict raw
             /\ py_eq_one (Dict.get "schema" raw) = true
             /\ Dict.get "vehicles" raw = Some (JList (v :: l))).
Proof.
  destruct j as [| | | | |items|raw]; try done; simpl.
  - intros [= <-].
    eexists _, (JDict [("id", JStr "maxine-06-maxima");
                       ("name", JStr "Maxine"); ("year", JInt 2006);
                       ("make", JStr "Nissan"); ("model", JStr "Maxima");
                       ("current_mileage", JNull); ("items", JList items);
                       ("maintenance", JList [])]), [], _.
    repeat split; try done. by left.
  - destruct (py_eq_one (Dict.get "schema" raw)) eqn:S; [|done].
    intros (d & v & l & l' & -> & Hd & HM & Hsrc)%load_schema1_inv.
    exists d, v, l, l'. repeat split; try done.
    destruct Hsrc as [[= -> ->]|Hsrc]; [by left|].
    right. by exists raw.
Qed.



(** ** The atomic writer *)

Lemma mkstemp_fresh (dir : string) (toks : list string) (fs : gmap path node)
  (tmp : path) :
  mkstemp dir toks fs = Some tmp ->
  tmp.1 = dir /\ fs !! tmp = None /\ exists tok, In tok toks /\ tmp.2 = tmp_name tok.
Proof.
  induction toks as [|tok toks IH]; simpl; [done|].
  destruct (fs !! (dir, tmp_name tok)) eqn:E.
  - intros (? & ? & tok' & ? & ?)%IH. repeat split; try done.
    exists tok'. split; [by right|done].
  - intros [= <-]. repeat split; try done. exists tok. split; [by left|done].
Qed.

(** The temporary names differ from the names of the two stores' files. *)
Lemma tmp_name_not_store tok :
  tmp_name tok <> DATA_FILE /\ tmp_name tok <> SETTINGS_FILE.
Proof. split; discriminate. Qed.

Lemma cleanup_tmp_dirs tmp w : dirs (cleanup_tmp tmp w) = dirs w.
Proof.
  unfold cleanup_tmp. destruct (files w !! tmp); [|done].
  by destruct (unlink_ok (env w)).
Qed.

Lemma write_and_replace_dirs tmp p data w :
  dirs (write_and_replace tmp p data w).1 = dirs w.
Proof.
  unfold write_and_replace. destruct (dump_fails (env w)); [done|]. simpl.
  by destruct (replace_ok (env w)).
Qed.

Lemma safe_write_json_dirs p data w :
  mkdir_ok (env w) = true ->
  dirs (safe_write_json p data w).1 = {[ p.1 ]} ∪ dirs w.
Proof.
  intros Hmk. unfold safe_write_json. rewrite Hmk. simpl.
  destruct (mkstemp _ _ _) as [tmp|]; [|done].
  destruct (write_and_replace _ _ _ _) as [w1 r1] eqn:E. simpl.
  rewrite cleanup_tmp_dirs.
  change w1 with ((w1, r1).1). rewrite <- E.
  by rewrite write_and_replace_dirs.
Qed.

(** A write that returns has put the text at the target, for a target that
    is not named like a temporary file. *)
Lemma safe_write_json_ok p data w :
  (safe_write_json p data w).2 = Ok () ->
  (forall tok, p.2 <> tmp_name tok) ->
  files (safe_write_json p data w).1 = <[p := File (JsonText data)]> (files w).
Proof.
  unfold safe_write_json. intros Hok Hname.
  destruct (mkdir_ok (env w)); [|done]. simpl in *.
  destruct (mkstemp p.1 (tmp_tokens (env w)) (files w)) as [tmp|] eqn:Htmp;
    [|done].
  apply mkstemp_fresh in Htmp as (_ & Hnew & tok & _ & Htok).
  assert (tmp <> p) as Hne by (intros ->; by apply (Hname tok)).
  revert Hok. unfold write_and_replace, cleanup_tmp, fs_replace. simpl.
  destruct (dump_fails (env w)); [done|]. simpl.
  destruct (replace_ok (env w)); [|done]. simpl. intros _.
  rewrite lookup_insert_eq. simpl.
  rewrite insert_insert_eq, delete_insert_id by done.
  by rewrite lookup_insert_ne, Hnew.
Qed.

(** C7, as the writer has it.  The destination directory is provided; the
    temporary file is created in the directory of the target, under a name
    that did not exist; no path other than the target and the temporary file
    changes.  On success the target holds the new text and the temporary
    file is gone.  On a failure after the temporary file was created the
    error propagates, a target other than the temporary file keeps what it
    held, and the temporary file is removed when its removal succeeds: a
    removal that fails is swallowed and leaves the file behind. *)
Theorem safe_write_json_atomic (p : path) (data : json) (w : world) :
  let w' := (safe_write_json p data w).1 in
  let r := (safe_write_json p data w).2 in
  if mkdir_ok (env w) then
    p.1 ∈ dirs w'
    /\ match mkstemp p.1 (tmp_tokens (env w)) (files w) with
       | None => r = Raise OSError /\ files w' = files w
       | Some tmp =>
           tmp.1 = p.1
           /\ files w !! tmp = None
           /\ (forall q, q <> p -> q <> tmp -> files w' !! q = files w !! q)
           /\ match r with
              | Ok _ =>
                  dump_fails (env w) = None /\ replace_ok (env w) = true
                  /\ (tmp <> p -> files w' = <[p := File (JsonText data)]> (files w))
              | Raise _ =>
                  (dump_fails (env w) = None -> replace_ok (env w) = false)
                  /\ (tmp <> p -> files w' !! p = files w !! p)
                  /\ (if unlink_ok (env w) then files w' = files w
                      else is_Some (files w' !! tmp))
              end
       end
  else r = Raise OSError /\ w' = w.
Proof.
  intros w' r.
  destruct (mkdir_ok (env w)) eqn:Hmk.
  2: { unfold w', r, safe_write_json. by rewrite Hmk. }
  split.
  { unfold w'. rewrite safe_write_json_dirs by done. set_solver. }
  unfold w', r, safe_write_json. rewrite Hmk. simpl.
  destruct (mkstemp p.1 (tmp_tokens (env w)) (files w)) as [tmp|] eqn:Htmp; simpl;
    [|done].
  apply mkstemp_fresh in Htmp as (Hdir & Hnew & _).
  split; [done|]. split; [done|].
  unfold write_and_replace, cleanup_tmp, fs_replace. simpl.
  destruct (dump_fails (env w)) as [partial|] eqn:Hd; simpl.
  - rewrite lookup_insert_eq, insert_insert_eq.
    destruct (unlink_ok (env w)) eqn:Hu; simpl.
    + rewrite delete_insert_id by done. done.
    + repeat split; try done.
      * intros q _ Hq. by rewrite lookup_insert_ne.
      * intros Hp. by rewrite lookup_insert_ne.
      * rewrite lookup_insert_eq. by eexists.
  - destruct (replace_ok (env w)) eqn:Hr; simpl.
    + rewrite lookup_insert_eq. simpl.
      rewrite insert_insert_eq, delete_insert_id by done.
      destruct (decide (tmp = p)) as [->|Hne].
      * rewrite lookup_insert_eq.
        destruct (unlink_ok (env w)); simpl; repeat split; try done.
        -- intros q Hq _. rewrite delete_insert_id by done. done.
        -- intros q Hq _. by rewrite lookup_insert_ne.
      * rewrite lookup_insert_ne, Hnew by done. simpl. repeat split; try done.
        intros q Hq _. by rewrite lookup_insert_ne.
    + rewrite lookup_insert_eq, insert_insert_eq.
      destruct (unlink_ok (env w)) eqn:Hu; simpl.
      * rewrite delete_insert_id by done. done.
      * repeat split; try done.
        -- intros q _ Hq. by rewrite lookup_insert_ne.
        -- intros Hp. by rewrite lookup_insert_ne.
        -- rewrite lookup_insert_eq. by eexists.
Qed.

(** C7, as claimed, fails where the removal of the temporary file fails:
    the write of [stubborn_world] raises, the target keeps its text, and the
    temporary file stays behind with the partial text. *)
Lemma safe_write_json_leaves_tmp :
  (safe_write_json (app_dir, DATA_FILE) (JDict []) stubborn_world).2 = Raise OSError
  /\ files stubborn_world !! (app_dir, tmp_name "k3x9q2ab") = None
  /\ files (safe_write_json (app_dir, DATA_FILE) (JDict []) stubborn_world).1
       !! (app_dir, tmp_name "k3x9q2ab") = Some (File (Garbage "{"))
  /\ files (safe_write_json (app_dir, DATA_FILE) (JDict []) stubborn_world).1
       !! (app_dir, DATA_FILE) = files stubborn_world !! (app_dir, DATA_FILE).
Proof. vm_compute. repeat split. Qed.

(** ** Saving *)

Lemma save_to_heap p r st d :
  heap st !! r = Some (JDict d) ->
  heap (save_to p r st).1
  = <[r := JDict (Dict.set "updated_at" (JStr (now_iso (disk st))) d)]> (heap st).
Proof.
  intros H. unfold save_to. rewrite H.
  by destruct (safe_write_json _ _ _).
Qed.

Lemma save_to_result p r st d :
  heap st !! r = Some (JDict d) ->
  (save_to p r st).2
  = (safe_write_json p
       (JDict (Dict.set "updated_at" (JStr (now_iso (disk st))) d)) (disk st)).2
  /\ disk (save_to p r st).1
     = (safe_write_json p
          (JDict (Dict.set "updated_at" (JStr (now_iso (disk st))) d)) (disk st)).1.
Proof.
  intros H. unfold save_to. rewrite H.
  by destruct (safe_write_json _ _ _).
Qed.

(** C10: [save_data] and [save_settings] assign the stamp through the
    reference they are given.  Whatever becomes of the write, the caller's
    mapping afterwards is the one it was with [updated_at] set to the clock
    reading: every other key keeps its value, and no other object of the
    heap changes. *)
Theorem save_stamps_in_place (r : loc) (st : state) (d : list (string * json)) :
  heap st !! r = Some (JDict d) ->
  let d' := Dict.set "updated_at" (JStr (now_iso (disk st))) d in
  heap (save_data r st).1 !! r = Some (JDict d')
  /\ heap (save_settings r st).1 !! r = Some (JDict d')
  /\ Dict.get "updated_at" d' = Some (JStr (now_iso (disk st)))
  /\ (forall k, k <> "updated_at" -> Dict.get k d' = Dict.get k d)
  /\ (forall r', r' <> r ->
        heap (save_data r st).1 !! r' = heap st !! r'
        /\ heap (save_settings r st).1 !! r' = heap st !! r').
Proof.
  intros H d'. unfold save_data, save_settings.
  rewrite !(save_to_heap _ _ _ _ H), !lookup_insert_eq.
  split; [done|]. split; [done|].
  split; [apply DictFacts.get_set_eq|].
  split.
  - intros k Hk. apply DictFacts.get_set_ne. congruence.
  - intros r' Hr'. by rewrite lookup_insert_ne.
Qed.

(** The stamp stays in memory when the write fails. *)
Lemma save_stamps_in_place_witness :
  (save_data 0%nat stubborn_state).2 = Raise OSError
  /\ heap (save_data 0%nat stubborn_state).1 !! 0%nat
     = Some (JDict [("schema", JInt 1);
                    ("active_vehicle_id", JStr "maxine-06-maxima");
                    ("vehicles", JList [default_vehicle]);
                    ("updated_at", JStr "2026-11-04 10:00:07")]).
Proof.
  split; [by vm_compute|].
  apply (save_stamps_in_place 0%nat stubborn_state stamped_fields).
  reflexivity.
Defined.

(** ** The round trip *)

Lemma vehicle_setdefaults_id v :
  has_vehicle_keys v = true -> vehicle_setdefaults v = Some v.
Proof.
  destruct v as [| | | | | |f]; try done. unfold has_vehicle_keys.
  intros [[Hc Hi]%andb_prop Hm]%andb_prop.
  unfold vehicle_setdefaults, py_setdefault.
  rewrite (DictFacts.setdefault_present _ _ _ Hc). cbn [mbind option_bind].
  rewrite (DictFacts.setdefault_present _ _ _ Hi). cbn [mbind option_bind].
  by rewrite (DictFacts.setdefault_present _ _ _ Hm).
Qed.

Lemma backfill_id l :
  forallb well_formed_vehicle l = true -> mapM vehicle_setdefaults l = Some l.
Proof.
  intros H. apply mapM_Some_2. induction l as [|v l IH]; [constructor|].
  simpl in H. apply andb_prop in H as [Hv Hl]. constructor; [|by apply IH].
  apply vehicle_setdefaults_id. destruct v; try done.
  simpl in Hv. by apply andb_prop in Hv as [_ Hv].
Qed.

(** The schema-1 branch returns a well-formed mapping that has its stamp as
    it is. *)
Lemma load_schema1_id w d :
  well_formed d = true -> Dict.has "updated_at" d = true ->
  load_schema1 w d = Some (JDict d).
Proof.
  unfold well_formed. simpl.
  intros [[_ Ha]%andb_prop Hv]%andb_prop Hu.
  destruct (Dict.get "vehicles" d) as [[| | | | |[|v l]|]|] eqn:E; try done.
  assert (Dict.has "vehicles" d = true) as Hh by (unfold Dict.has; by rewrite E).
  unfold load_schema1.
  rewrite (DictFacts.setdefault_present "updated_at" _ d Hu).
  rewrite (DictFacts.setdefault_present "active_vehicle_id" _ d Ha).
  rewrite (DictFacts.setdefault_present "vehicles" _ d Hh).
  rewrite E. cbn [mbind option_bind py_truthy negb].
  rewrite E. cbn [mbind option_bind backfill_vehicles].
  rewrite (backfill_id (v :: l)) by done. cbn [fmap option_fmap option_map mbind option_bind].
  by rewrite (DictFacts.set_id _ _ _ E).
Qed.

Lemma well_formed_stamped d t :
  well_formed d = true ->
  well_formed (Dict.set "updated_at" t d) = true
  /\ Dict.has "updated_at" (Dict.set "updated_at" t d) = true.
Proof.
  unfold well_formed. simpl.
  rewrite !DictFacts.has_set, !DictFacts.get_set_ne by done. simpl.
  by intros [[-> ->]%andb_prop ->]%andb_prop.
Qed.

(** C1, as the store has it: loading the file a successful [save_data] of a
    well-formed document wrote, at any later time, returns that document
    with [updated_at] set to the clock reading of the save.  Every other
    field is the one the document had; the stamp is the reading of a clock
    of one-second precision, not a value above the stamp the document
    carried. *)
Theorem save_load_roundtrip (r : loc) (st : state) (d : list (string * json))
  (later : world) :
  heap st !! r = Some (JDict d) ->
  well_formed d = true ->
  (save_data r st).2 = Ok () ->
  base_dir later = base_dir (disk st) ->
  files later = files (disk (save_data r st).1) ->
  load_data later = JDict (Dict.set "updated_at" (JStr (now_iso (disk st))) d)
  /\ (forall k, k <> "updated_at" -> py_getitem k (load_data later) = Dict.get k d)
  /\ py_getitem "updated_at" (load_data later) = Some (JStr (now_iso (disk st))).
Proof.
  intros H Hwf Hok Hbase Hfiles.
  set (d' := Dict.set "updated_at" (JStr (now_iso (disk st))) d).
  assert (load_data later = JDict d') as ->.
  { unfold save_data in Hok, Hfiles.
    destruct (save_to_result (data_path (disk st)) r st d H) as [Hr Hd].
    rewrite Hr in Hok. rewrite Hd in Hfiles. fold d' in Hok, Hfiles.
    rewrite (safe_write_json_ok _ _ _ Hok) in Hfiles.
    2: { intros tok. simpl. intros Heq.
         by destruct (tmp_name_not_store tok). }
    assert (files later !! data_path later = Some (File (JsonText (JDict d'))))
      as Hfile.
    { rewrite Hfiles. unfold data_path. rewrite Hbase. apply lookup_insert_eq. }
    rewrite (load_data_parsed _ _ Hfile). simpl.
    destruct (well_formed_stamped d (JStr (now_iso (disk st))) Hwf)
      as [Hwf' Hu'].
    fold d' in Hwf', Hu'. rewrite (load_schema1_id _ _ Hwf' Hu').
    unfold well_formed in Hwf'.
    by apply andb_prop in Hwf' as [[-> _]%andb_prop _]. }
  split; [done|]. simpl. split.
  - intros k Hk. apply DictFacts.get_set_ne. congruence.
  - apply DictFacts.get_set_eq.
Qed.

Lemma save_load_roundtrip_witness :
  load_data (disk (save_data 0%nat stamped_state).1) = JDict stamped_fields.
Proof.
  apply (save_load_roundtrip 0%nat stamped_state stamped_fields
           (disk (save_data 0%nat stamped_state).1));
    by vm_compute.
Defined.

(** C1, as claimed, fails on the stamp: a document stamped in the second in
    which it is saved reloads with the stamp it carried, not with a greater
    one. *)
Lemma roundtrip_same_second :
  well_formed stamped_fields = true
  /\ (save_data 0%nat stamped_state).2 = Ok ()
  /\ Dict.get "updated_at" stamped_fields = Some (JStr "2026-11-04 10:00:00")
  /\ py_getitem "updated_at" (load_data (disk (save_data 0%nat stamped_state).1))
     = Some (JStr "2026-11-04 10:00:00")
  /\ String.ltb "2026-11-04 10:00:00" "2026-11-04 10:00:00" = false.
Proof. vm_compute. repeat split. Qed.

(** ** Loading the settings *)

Lemma merge_fold_get raw k ks acc :
  Dict.get k
    (fold_left (fun acc k => match Dict.get k raw with
                             | Some v => Dict.set k v acc
                             | None => acc
                             end) ks acc)
  = if existsb (String.eqb k) ks
    then match Dict.get k raw with
         | Some v => Some v
         | None => Dict.get k acc
         end
    else Dict.get k acc.
Proof.
  revert acc. induction ks as [|k0 ks IH]; intros acc; simpl; [done|].
  rewrite IH. destruct (String.eqb k k0) eqn:E; simpl.
  - apply String.eqb_eq in E. subst k0.
    destruct (Dict.get k raw) as [v|] eqn:Ek.
    + rewrite DictFacts.get_set_eq. by destruct (existsb _ _).
    + by destruct (existsb _ _).
  - apply String.eqb_neq in E.
    destruct (Dict.get k0 raw) as [v0|]; [|done].
    rewrite DictFacts.get_set_ne by congruence. done.
Qed.

(** The merge keeps the keys of the defaults and takes the values the file
    has for them. *)
Lemma merge_known_get raw d k :
  Dict.get k (merge_known raw d)
  = match Dict.get k d with
    | Some x => Some (default x (Dict.get k raw))
    | None => None
    end.
Proof.
  unfold merge_known. rewrite merge_fold_get.
  assert (existsb (String.eqb k) (map fst d) = Dict.has k d) as ->.
  { unfold Dict.has. induction d as [|[k0 v0] d IH]; simpl; [done|].
    destruct (String.eqb k k0); [done|]. apply IH. }
  unfold Dict.has. destruct (Dict.get k d); [|done].
  by destruct (Dict.get k raw).
Qed.

Lemma load_settings_try_ui_scale I w raw :
  py_eq_one (Dict.get "schema" raw) = true ->
  exists d, load_settings_try I w (JDict raw) = Some d
    /\ Dict.get "ui_scale" d
       = Some (JFloat (default DEFAULT_UI_SCALE
                         (py_float I (Dict.get_or "ui_scale"
                                        (JFloat DEFAULT_UI_SCALE) raw)))).
Proof.
  intros Hs. unfold load_settings_try. rewrite Hs.
  set (d1 := Dict.set "updated_at" _ (merge_known raw (default_settings w))).
  assert (forall k, k <> "updated_at" ->
            Dict.get k d1
            = match Dict.get k (default_settings w) with
              | Some x => Some (default x (Dict.get k raw))
              | None => None
              end) as Hd1.
  { intros k Hk. unfold d1. rewrite DictFacts.get_set_ne by congruence.
    apply merge_known_get. }
  unfold sanitize_theme. rewrite (Hd1 "theme") by done.
  cbn [default_settings Dict.get String.eqb Ascii.eqb Bool.eqb mbind option_bind].
  set (d2 := match default (JStr DEFAULT_THEME) (Dict.get "theme" raw) with
             | JStr "dark" | JStr "light" => Some d1
             | _ => Some (Dict.set "theme" (JStr DEFAULT_THEME) d1)
             end).
  assert (exists d2', d2 = Some d2'
            /\ forall k, k <> "theme" -> Dict.get k d2' = Dict.get k d1)
    as (d2' & -> & Hd2).
  { assert (forall x, x = Some (Dict.set "theme" (JStr DEFAULT_THEME) d1) ->
              exists d2', x = Some d2'
                /\ forall k, k <> "theme" -> Dict.get k d2' = Dict.get k d1) as Hset.
    { intros x ->. eexists. split; [done|].
      intros k Hk. rewrite DictFacts.get_set_ne by congruence. done. }
    assert (forall x, x = Some d1 ->
              exists d2', x = Some d2'
                /\ forall k, k <> "theme" -> Dict.get k d2' = Dict.get k d1) as Hid.
    { intros x ->. by eexists. }
    unfold d2.
    repeat (first [ by apply Hset | by apply Hid
                  | match goal with
                    | |- context [match ?x with _ => _ end] => destruct x
                    end ]). }
  cbn [mbind option_bind]. unfold sanitize_ui_scale.
  rewrite Hd2, (Hd1 "ui_scale") by done.
  cbn [default_settings Dict.get String.eqb Ascii.eqb Bool.eqb mbind option_bind].
  set (v := default (JFloat DEFAULT_UI_SCALE) (Dict.get "ui_scale" raw)).
  assert (Dict.get_or "ui_scale" (JFloat DEFAULT_UI_SCALE) raw = v) as ->.
  { unfold v, Dict.get_or. by destruct (Dict.get "ui_scale" raw). }
  set (d3 := Dict.set "ui_scale"
               (JFloat (default DEFAULT_UI_SCALE (py_float I v))) d2').
  assert (match py_float I v with
          | Some f => Some (Dict.set "ui_scale" (JFloat f) d2')
          | None => Some (Dict.set "ui_scale" (JFloat DEFAULT_UI_SCALE) d2')
          end = Some d3) as ->.
  { unfold d3. by destruct (py_float I v). }
  cbn [mbind option_bind]. unfold sanitize_autosave.
  assert (Dict.get "autosave_ms" d3
          = Some (default (JInt 20000) (Dict.get "autosave_ms" raw))) as ->.
  { unfold d3. rewrite DictFacts.get_set_ne, Hd2, (Hd1 "autosave_ms") by done.
    done. }
  cbn [mbind option_bind].
  destruct (py_int _); eexists; (split; [done|]);
    rewrite !DictFacts.get_set_ne by done; apply DictFacts.get_set_eq.
Qed.

(** C8, as the store has it: the loaded [ui_scale] is the float the stored
    value converts to, whatever its sign, and the configured default when
    nothing is stored or when the stored value does not convert to a
    float. *)
Theorem load_settings_ui_scale (I : interp) (w : world) :
  Dict.get "ui_scale" (load_settings I w)
  = Some (JFloat match stored_ui_scale w with
                 | Some v => default DEFAULT_UI_SCALE (py_float I v)
                 | None => DEFAULT_UI_SCALE
                 end).
Proof.
  unfold load_settings, stored_ui_scale.
  destruct (files w !! settings_path w) as [n|] eqn:Hn.
  2: { unfold read_json. by rewrite Hn. }
  destruct (read_json w (settings_path w)) as [j|]; [|done].
  cbn [mbind option_bind].
  destruct j as [| | | | | |raw]; try done.
  destruct (py_eq_one (Dict.get "schema" raw)) eqn:Hs.
  - destruct (load_settings_try_ui_scale I w raw Hs) as (d & -> & ->).
    unfold Dict.get_or. by destruct (Dict.get "ui_scale" raw).
  - unfold load_settings_try. by rewrite Hs.
Qed.

(** C8, as claimed, fails on a stored value that is a float but not a
    positive one: [-2] loads as [-2.0], not as the default, under every
    interpreter. *)
Lemma load_settings_keeps_negative_scale :
  (forall I : interp,
     py_float I (JInt (-2)) = Some minus_two
     /\ Dict.get "ui_scale" (load_settings I negative_scale_world)
        = Some (JFloat minus_two))
  /\ float_positive minus_two = false
  /\ SFeqb minus_two DEFAULT_UI_SCALE = false.
Proof. repeat split. Qed.

(** ** The maintenance due computation *)



(** ** Mark done *)







(** Mark-done at 150000 miles, under every interpreter. *)
Example mark_maintenance_done_ex (I : interp) :
  let '(a', st', r) :=
    mark_maintenance_done I ["0"] garage_app (garage_state (JInt 150000)) in
  r = Ok ()
  /\ (get_vehicle a' st' ≫= Dict.get "maintenance")
     = Some (JList [JDict [("task", JStr "Oil change");
                           ("last_date", JStr "2026-11-04");
                           ("last_miles", JStr "150000");
                           ("interval_miles", JStr "3000");
                           ("notes", JStr "");
                           ("created_at", JStr "2026-05-01 09:00:00");
                           ("updated_at", JStr "2026-11-04 10:00:00")]])
  /\ read_json (disk st') (data_path (disk st')) = heap st' !! 0%nat.
Proof. vm_compute. repeat split. Qed.

(** ** The attachment path allocator *)











(** A collision within one second: the folder of [crowded_world] holds the
    first candidate, and the allocator answers with the numbered one. *)
Example unique_dest_path_collision :
  unique_dest_path crowded_world "/opt/maxine/maxine_assets" "/home/me/receipt.pdf"
  = Some ("/opt/maxine/maxine_assets", "receipt_20261104_100000_1.pdf")
  /\ unique_dest_path_legacy crowded_world "/opt/maxine/maxine_assets"
       "/home/me/receipt.pdf"
     = Some ("/opt/maxine/maxine_assets", "receipt_20261104_100000_1.pdf")
  /\ unique_dest_path crowded_world "/opt/maxine/maxine_assets" "/home/me/photo.jpg"
     = Some ("/opt/maxine/maxine_assets", "photo_20261104_100000.jpg").
Proof. vm_compute. repeat split. Qed.

(** * Further properties *)

(** ** The settings store: whitelist, types, idempotence *)

Lemma get_not_key k (d : list (string * json)) :
  ~ In k (map fst d) -> Dict.get k d = None.
Proof.
  induction d as [|[k0 v0] d IH]; simpl; [done|]. intros Hn.
  destruct (String.eqb k k0) eqn:E.
  - apply String.eqb_eq in E. subst. destruct Hn. by left.
  - apply IH. intros Hin. apply Hn. by right.
Qed.

(** Two dicts with the same keys in the same order, none twice, and the same
    value under every key are the same dict. *)
Lemma dict_ext (a b : list (string * json)) :
  map fst a = map fst b -> List.NoDup (map fst a) ->
  (forall k, Dict.get k a = Dict.get k b) -> a = b.
Proof.
  revert b. induction a as [|[k v] a IH]; intros [|[k' v'] b]; simpl; try done.
  intros [= <- Hkeys] Hnd Hget. inversion Hnd as [|? ? Hk Hnd']; subst.
  pose proof (Hget k) as Hk0. rewrite String.eqb_refl in Hk0.
  injection Hk0 as <-. f_equal. apply IH; [done|done|].
  intros k0. destruct (String.eqb k0 k) eqn:E.
  - apply String.eqb_eq in E. subst k0.
    rewrite !get_not_key; [done| |done]. by rewrite <- Hkeys.
  - specialize (Hget k0). by rewrite E in Hget.
Qed.

Lemma keys_set_present k v (d : list (string * json)) :
  Dict.has k d = true -> map fst (Dict.set k v d) = map fst d.
Proof.
  unfold Dict.has. induction d as [|[k0 v0] d IH]; simpl; [done|].
  destruct (String.eqb k k0) eqn:E; simpl.
  - apply String.eqb_eq in E. by subst.
  - intros H. by rewrite IH.
Qed.

Lemma merge_fold_keys raw ks (acc : list (string * json)) :
  (forall k, In k ks -> Dict.has k acc = true) ->
  map fst
    (fold_left (fun acc k => match Dict.get k raw with
                             | Some v => Dict.set k v acc
                             | None => acc
                             end) ks acc)
  = map fst acc.
Proof.
  revert acc. induction ks as [|k ks IH]; intros acc Hin; simpl; [done|].
  destruct (Dict.get k raw) as [v|].
  - rewrite IH.
    + apply keys_set_present, Hin. by left.
    + intros k' Hk'. rewrite DictFacts.has_set.
      rewrite (Hin k') by (by right). apply orb_true_r.
  - apply IH. intros k' Hk'. apply Hin. by right.
Qed.

(** The merge is the defaults with the values the file has for their keys. *)
Lemma merge_known_map raw (d : list (string * json)) :
  List.NoDup (map fst d) ->
  merge_known raw d
  = map (fun kx => (kx.1, default kx.2 (Dict.get kx.1 raw))) d.
Proof.
  intros Hnd.
  assert (map fst (merge_known raw d) = map fst d) as Hkeys.
  { unfold merge_known. apply merge_fold_keys. intros k Hk.
    apply DictFacts.has_true. destruct (Dict.get k d) eqn:E; [by eexists|].
    exfalso. clear -Hk E. induction d as [|[k0 v0] d IH]; simpl in *; [done|].
    destruct (String.eqb k k0) eqn:E'; [done|].
    destruct Hk as [->|Hk]; [by rewrite String.eqb_refl in E'|by apply IH]. }
  apply dict_ext.
  - rewrite Hkeys, map_map. by apply map_ext.
  - by rewrite Hkeys.
  - intros k. rewrite merge_known_get. clear.
    induction d as [|[k0 v0] d IH]; simpl; [done|].
    destruct (String.eqb k k0) eqn:E; [|done].
    apply String.eqb_eq in E. by subst.
Qed.

Lemma default_settings_keys w :
  List.NoDup (map fst (default_settings w)).
Proof.
  simpl. repeat (constructor; [simpl; intuition discriminate|]). constructor.
Qed.

(** The sanitizers on a mapping with the eight keys. *)
Lemma sanitize_closed I (s t u ff fs am cm : json) (now : string) :
  (d ← sanitize_theme [("schema", s); ("theme", t); ("ui_scale", u);
                       ("font_family", ff); ("font_size", fs);
                       ("autosave_ms", am); ("car_mode", cm);
                       ("updated_at", JStr now)];
   d ← sanitize_ui_scale I d;
   d ← sanitize_autosave d;
   Some (Dict.set "car_mode"
           (JBool (py_truthy (Dict.get_or "car_mode" (JBool false) d))) d))
  = Some [("schema", s); ("theme", keep_theme t);
          ("ui_scale", JFloat (default DEFAULT_UI_SCALE (py_float I u)));
          ("font_family", ff); ("font_size", fs);
          ("autosave_ms", JInt (default 20000%Z (py_int am)));
          ("car_mode", JBool (py_truthy cm));
          ("updated_at", JStr now)].
Proof.
  assert (sanitize_theme [("schema", s); ("theme", t); ("ui_scale", u);
                          ("font_family", ff); ("font_size", fs);
                          ("autosave_ms", am); ("car_mode", cm);
                          ("updated_at", JStr now)]
          = Some [("schema", s); ("theme", keep_theme t); ("ui_scale", u);
                  ("font_family", ff); ("font_size", fs);
                  ("autosave_ms", am); ("car_mode", cm);
                  ("updated_at", JStr now)]) as ->.
  { unfold sanitize_theme, keep_theme. cbn [Dict.get String.eqb Ascii.eqb Bool.eqb mbind option_bind].
    repeat (first [ reflexivity
                  | match goal with
                    | |- context [match ?x with _ => _ end] => destruct x
                    end ]). }
  cbn [mbind option_bind]. unfold sanitize_ui_scale.
  cbn [Dict.get String.eqb Ascii.eqb Bool.eqb mbind option_bind].
  destruct (py_float I u) as [f|]; cbn [default mbind option_bind];
    unfold sanitize_autosave;
    cbn [Dict.get Dict.set String.eqb Ascii.eqb Bool.eqb mbind option_bind];
    destruct (py_int am) as [n|]; reflexivity.
Qed.

(** The [try] block of [load_settings] in closed form. *)
Lemma load_settings_try_closed I w raw :
  py_eq_one (Dict.get "schema" raw) = true ->
  load_settings_try I w (JDict raw) = Some (settings_of I (now_iso w) raw).
Proof.
  intros Hs. unfold load_settings_try. rewrite Hs.
  rewrite (merge_known_map raw _ (default_settings_keys w)).
  unfold settings_of, Dict.get_or, default_settings.
  cbn [map fst snd Dict.set String.eqb Ascii.eqb Bool.eqb].
  apply sanitize_closed.
Qed.

Lemma load_settings_parsed I w raw :
  files w !! settings_path w = Some (File (JsonText (JDict raw))) ->
  py_eq_one (Dict.get "schema" raw) = true ->
  load_settings I w = settings_of I (now_iso w) raw.
Proof.
  intros Hf Hs. unfold load_settings, read_json. rewrite Hf.
  cbn [mbind option_bind]. by rewrite (load_settings_try_closed I w raw Hs).
Qed.

(** Every load is the defaults or the closed form of a schema-1 mapping. *)
Lemma load_settings_cases I w :
  load_settings I w = default_settings w
  \/ exists raw,
       py_eq_one (Dict.get "schema" raw) = true
       /\ load_settings I w = settings_of I (now_iso w) raw.
Proof.
  unfold load_settings, read_json.
  destruct (files w !! settings_path w) as [[[t|j]|]|] eqn:Hf; try by left.
  cbn [mbind option_bind].
  destruct j as [| | | | | |raw]; try by left.
  destruct (py_eq_one (Dict.get "schema" raw)) eqn:Hs.
  - right. exists raw. split; [done|].
    by rewrite (load_settings_try_closed I w raw Hs).
  - left. unfold load_settings_try. by rewrite Hs.
Qed.

Lemma keep_theme_valid t :
  keep_theme t = JStr "dark" \/ keep_theme t = JStr "light".
Proof.
  unfold keep_theme.
  repeat (first [ by left | by right
                | match goal with
                  | |- context [match ?x with _ => _ end] => destruct x
                  end ]).
Qed.

(** X1: whatever the settings file holds, the loaded settings have exactly
    the eight known keys, in the order of the defaults, with a schema tag
    equal to 1, a theme that is [dark] or [light], a float as UI scale, an
    integer as autosave interval, a boolean as car mode, and the clock
    reading of the load as stamp.  Keys the file has beyond these are
    dropped. *)
Theorem load_settings_shape (I : interp) (w : world) :
  exists (s ff fs : json) (t : string) (f : float64) (n : Z) (b : bool),
    load_settings I w
    = [("schema", s); ("theme", JStr t); ("ui_scale", JFloat f);
       ("font_family", ff); ("font_size", fs); ("autosave_ms", JInt n);
       ("car_mode", JBool b); ("updated_at", JStr (now_iso w))]
    /\ py_eq_one (Some s) = true
    /\ (t = "dark" \/ t = "light").
Proof.
  destruct (load_settings_cases I w) as [->|(raw & Hs & ->)].
  - exists (JInt 1), (JStr "Segoe UI"), (JInt 13), "dark", DEFAULT_UI_SCALE,
      20000%Z, false.
    split; [done|]. split; [done|]. by left.
  - unfold settings_of.
    destruct (keep_theme_valid
                (Dict.get_or "theme" (JStr DEFAULT_THEME) raw)) as [Ht|Ht];
      rewrite Ht; eexists _, _, _, _, _, _, _; (split; [reflexivity|]);
      (split; [unfold Dict.get_or; destruct (Dict.get "schema" raw); done|]);
      [by left|by right].
Qed.



(** X3: loading is idempotent.  A settings file that holds what an earlier
    load returned loads as the same settings, with only the stamp replaced
    by the new clock reading. *)
Theorem load_settings_idempotent (I : interp) (w later : world) :
  files later !! settings_path later
  = Some (File (JsonText (JDict (load_settings I w)))) ->
  load_settings I later
  = Dict.set "updated_at" (JStr (now_iso later)) (load_settings I w).
Proof.
  destruct (load_settings_cases I w) as [->|(raw & Hs & ->)]; intros Hf.
  - by rewrite (load_settings_parsed I later _ Hf).
  - rewrite (load_settings_parsed I later _ Hf).
    2: { unfold settings_of, Dict.get_or. simpl.
         by destruct (Dict.get "schema" raw). }
    unfold settings_of at 1. unfold Dict.get_or at 1 2 3 4 5 6 7.
    cbn [settings_of Dict.get Dict.set String.eqb Ascii.eqb Bool.eqb
         py_float py_int py_truthy default].
    by destruct (keep_theme_valid
                   (Dict.get_or "theme" (JStr DEFAULT_THEME) raw)) as [-> | ->].
Qed.

Lemma load_settings_idempotent_witness :
  load_settings bare_interp resaved_settings_world
  = [("schema", JInt 1); ("theme", JStr "dark");
     ("ui_scale", JFloat DEFAULT_UI_SCALE);
     ("font_family", JStr "Segoe UI"); ("font_size", JInt 13);
     ("autosave_ms", JInt 5000); ("car_mode", JBool true);
     ("updated_at", JStr "2026-11-05 08:00:00")].
Proof.
  apply (load_settings_idempotent bare_interp
           (settings_world "2026-11-04 10:00:00" blue_settings)
           resaved_settings_world).
  reflexivity.
Defined.

(** ** The document store: what a load returns, and loading it again *)

Lemma backfill_fix l :
  forallb has_vehicle_keys l = true -> mapM vehicle_setdefaults l = Some l.
Proof.
  intros H. apply mapM_Some_2. induction l as [|v l IH]; [constructor|].
  simpl in H. apply andb_prop in H as [Hv Hl]. constructor; [|by apply IH].
  by apply vehicle_setdefaults_id.
Qed.

(** The schema-1 branch keeps the schema tag and leaves a mapping with the
    stamp and the active vehicle. *)
Lemma load_schema1_keys w raw d :
  load_schema1 w raw = Some (JDict d) ->
  Dict.get "schema" d = Dict.get "schema" raw
  /\ Dict.has "active_vehicle_id" d = true
  /\ Dict.has "updated_at" d = true.
Proof.
  unfold load_schema1. intros H.
  repeat (match type of H with
          | (?m ≫= _) = Some _ => destruct m; simpl in H; [|done]
          end).
  injection H as <-.
  destruct (negb (py_truthy _));
    rewrite ?DictFacts.has_set, ?DictFacts.has_setdefault,
      ?DictFacts.get_set_ne, ?DictFacts.get_setdefault by done;
    simpl; rewrite ?orb_true_r; (split; [by destruct (Dict.get "schema" raw)|done]).
Qed.

Lemma load_data_shape w :
  exists d, load_data w = JDict d /\ loaded_shape d = true.
Proof.
  assert (exists d, default_data w = JDict d /\ loaded_shape d = true) as Hdef.
  { by eexists. }
  unfold load_data.
  destruct (files w !! data_path w) as [n|]; [|done].
  destruct (read_json w (data_path w)) as [j|]; [|done].
  cbn [mbind option_bind].
  destruct (load_data_try w j) as [doc|] eqn:Hdoc; [|done].
  destruct (load_data_try_vehicles w j doc Hdoc)
    as (d & v & l & l' & -> & Hd & HM & _).
  exists d. split; [done|].
  assert (vehicles_all has_vehicle_keys (JDict d) = true) as Hveh.
  { pose proof (length_mapM _ _ _ HM) as Hlen.
    destruct l' as [|v' l']; [done|]. simpl. rewrite Hd.
    apply (mapM_forallb _ _ _ HM). intros x x' Hx _.
    by apply (vehicle_setdefaults_keys x). }
  unfold loaded_shape. rewrite Hveh, andb_true_r.
  destruct j as [| | | | |items|raw]; try done.
  - simpl in Hdoc. by injection Hdoc as <-.
  - simpl in Hdoc.
    destruct (py_eq_one (Dict.get "schema" raw)) eqn:Hs; [|done].
    apply load_schema1_keys in Hdoc as (-> & -> & ->). by rewrite Hs.
Qed.

Lemma load_schema1_fix w d :
  loaded_shape d = true -> load_schema1 w d = Some (JDict d).
Proof.
  unfold loaded_shape. simpl.
  intros [[[_ Ha]%andb_prop Hu]%andb_prop Hv]%andb_prop.
  destruct (Dict.get "vehicles" d) as [[| | | | |[|v l]|]|] eqn:E; try done.
  assert (Dict.has "vehicles" d = true) as Hh by (unfold Dict.has; by rewrite E).
  unfold load_schema1.
  rewrite (DictFacts.setdefault_present "updated_at" _ d Hu).
  rewrite (DictFacts.setdefault_present "active_vehicle_id" _ d Ha).
  rewrite (DictFacts.setdefault_present "vehicles" _ d Hh).
  rewrite E. cbn [mbind option_bind py_truthy negb].
  rewrite E. cbn [mbind option_bind backfill_vehicles].
  rewrite (backfill_fix (v :: l)) by done.
  cbn [fmap option_fmap option_map mbind option_bind].
  by rewrite (DictFacts.set_id _ _ _ E).
Qed.

(** X4: loading is idempotent.  Whatever [load_data] returned, the default
    document included, a file that holds it loads as exactly that document:
    the migration has nothing left to backfill, and keeps the stamp. *)
Theorem load_data_idempotent (w later : world) :
  files later !! data_path later = Some (File (JsonText (load_data w))) ->
  load_data later = load_data w.
Proof.
  destruct (load_data_shape w) as (d & -> & Hshape). intros Hf.
  rewrite (load_data_parsed _ _ Hf). simpl.
  rewrite (load_schema1_fix later d Hshape).
  unfold loaded_shape in Hshape.
  by apply andb_prop in Hshape as [[[-> _]%andb_prop _]%andb_prop _].
Qed.

Lemma load_data_idempotent_witness :
  load_data (world_with "2026-11-05 08:00:00"
               (File (JsonText (load_data mistyped_world))))
  = load_data mistyped_world.
Proof.
  apply (load_data_idempotent mistyped_world
           (world_with "2026-11-05 08:00:00"
              (File (JsonText (load_data mistyped_world))))).
  reflexivity.
Defined.

(** ** Saving: what reaches the disk *)



Lemma save_to_written p r st d :
  heap st !! r = Some (JDict d) ->
  (forall tok, p.2 <> tmp_name tok) ->
  (save_to p r st).2 = Ok () ->
  read_json (disk (save_to p r st).1) p = heap (save_to p r st).1 !! r.
Proof.
  intros H Hname Hok.
  destruct (save_to_result p r st d H) as [Hr Hd].
  rewrite Hr in Hok. unfold read_json.
  rewrite Hd, (safe_write_json_ok _ _ _ Hok Hname), lookup_insert_eq.
  by rewrite (save_to_heap p r st d H), lookup_insert_eq.
Qed.

(** X5: after a [save_data] or a [save_settings] that returns, the file of
    the store holds exactly the caller's mapping as it is in memory, new
    stamp included. *)
Theorem save_writes_memory (r : loc) (st : state) (d : list (string * json)) :
  heap st !! r = Some (JDict d) ->
  ((save_data r st).2 = Ok () ->
   read_json (disk (save_data r st).1) (data_path (disk st))
   = heap (save_data r st).1 !! r)
  /\ ((save_settings r st).2 = Ok () ->
      read_json (disk (save_settings r st).1) (settings_path (disk st))
      = heap (save_settings r st).1 !! r).
Proof.
  intros H. unfold save_data, save_settings. split; intros Hok.
  - apply (save_to_written _ _ _ d H); [|done].
    intros tok. simpl. intros Heq. by destruct (tmp_name_not_store tok).
  - apply (save_to_written _ _ _ d H); [|done].
    intros tok. simpl. intros Heq. by destruct (tmp_name_not_store tok).
Qed.

Lemma save_writes_memory_witness :
  read_json (disk (save_data 0%nat stamped_state).1)
    (data_path (disk stamped_state))
  = heap (save_data 0%nat stamped_state).1 !! 0%nat.
Proof.
  apply (save_writes_memory 0%nat stamped_state stamped_fields);
    reflexivity.
Defined.



(** ** The active vehicle *)

Lemma has_vehicle_keys_dict v :
  has_vehicle_keys v = true -> exists f, v = JDict f.
Proof. destruct v; try done. by eexists. Qed.

(** On a sequence of dicts the search does not raise, and what it finds is
    the first vehicle whose id equals the one looked for. *)
Lemma find_vehicle_dicts vid l i :
  forallb has_vehicle_keys l = true ->
  exists o, find_vehicle vid l i = Ok o
    /\ match o with
       | Some j =>
           (i <= j)%nat
           /\ exists f, l !! (j - i)%nat = Some (JDict f)
                /\ py_eq (py_get "id" f) vid = true
       | None =>
           forall f, In (JDict f) l -> py_eq (py_get "id" f) vid = false
       end.
Proof.
  revert i. induction l as [|v l IH]; intros i Hall.
  - exists None. split; [done|]. intros f [].
  - simpl in Hall. apply andb_prop in Hall as [Hv Hl].
    destruct (has_vehicle_keys_dict v Hv) as [f ->]. simpl.
    destruct (py_eq (py_get "id" f) vid) eqn:E.
    + exists (Some i). split; [done|]. split; [lia|].
      exists f. by rewrite Nat.sub_diag.
    + destruct (IH (S i) Hl) as (o & -> & Ho). exists o. split; [done|].
      destruct o as [j|].
      * destruct Ho as (Hj & g & Hg & Heq). split; [lia|]. exists g.
        split; [|done]. replace (j - i)%nat with (S (j - S i)) by lia. done.
      * intros g [[= <-]|Hin]; [done|by apply Ho].
Qed.

(** X7: start-up resolves the active vehicle on every disk content.  The
    document is loaded, [_get_active_vehicle] raises nothing and returns
    one of its vehicles: one whose id equals [active_vehicle_id], and the
    first vehicle when none has that id. *)
Theorem app_init_resolves (r : loc) (st : state) :
  exists (a : app) (d v : list (string * json)) (vs : list json),
    app_init r st = Ok (a, State (<[r := JDict d]> (heap st)) (disk st))
    /\ load_data (disk st) = JDict d
    /\ data a = r /\ dirty a = false
    /\ Dict.get "vehicles" d = Some (JList vs)
    /\ vs !! vehicle a = Some (JDict v)
    /\ get_vehicle a (State (<[r := JDict d]> (heap st)) (disk st)) = Some v
    /\ (py_eq (py_get "id" v) (py_get "active_vehicle_id" d) = true
        \/ vehicle a = 0%nat
           /\ forall f, In (JDict f) vs ->
                py_eq (py_get "id" f) (py_get "active_vehicle_id" d) = false).
Proof.
  destruct (load_data_shape (disk st)) as (d & Hload & Hshape).
  unfold app_init. rewrite Hload.
  unfold loaded_shape in Hshape.
  apply andb_prop in Hshape as [_ Hveh]. simpl in Hveh.
  destruct (Dict.get "vehicles" d) as [[| | | | |[|v0 vs]|]|] eqn:E; try done.
  destruct (find_vehicle_dicts (py_get "active_vehicle_id" d) (v0 :: vs) 0 Hveh)
    as (o & Hfind & Ho).
  unfold get_active_vehicle, Dict.get_or. rewrite E, Hfind.
  destruct o as [j|].
  - destruct Ho as (_ & f & Hf & Heq). rewrite Nat.sub_0_r in Hf.
    exists (App r j false None []), d, f, (v0 :: vs).
    repeat split; try done.
    + unfold get_vehicle. simpl. by rewrite lookup_insert_eq, E, Hf.
    + by left.
  - simpl in Hveh. apply andb_prop in Hveh as [Hv0 _].
    destruct (has_vehicle_keys_dict v0 Hv0) as [f ->].
    exists (App r 0%nat false None []), d, f, (JDict f :: vs).
    repeat split; try done.
    + unfold get_vehicle. simpl. by rewrite lookup_insert_eq, E.
    + by right.
Qed.

(** ** Decimal text and the integer parser *)

Lemma chars_app s1 s2 :
  list_ascii_of_string (s1 +:+ s2)
  = list_ascii_of_string s1 ++ list_ascii_of_string s2.
Proof. induction s1 as [|a s1 IH]; simpl; [done|]. by rewrite IH. Qed.

Lemma string_of_chars_app l1 l2 :
  string_of_list_ascii (l1 ++ l2)
  = string_of_list_ascii l1 +:+ string_of_list_ascii l2.
Proof. induction l1 as [|a l1 IH]; simpl; [done|]. by rewrite IH. Qed.

Lemma pretty_N_char_digit (d : N) :
  (d < 10)%N ->
  digit_val (pretty_N_char d) = Some (Z.of_N d)
  /\ Ascii.eqb (pretty_N_char d) "_" = false.
Proof.
  intros Hd.
  assert (d = 0 \/ d = 1 \/ d = 2 \/ d = 3 \/ d = 4 \/ d = 5 \/ d = 6
          \/ d = 7 \/ d = 8 \/ d = 9)%N as Hcases by lia.
  repeat (destruct Hcases as [->|Hcases]; [done|]). by subst.
Qed.

(** The digits printed for a positive number read back as that number. *)
Lemma parse_pretty_N_go (x : N) (b : bool) (s : string) :
  (0 < x)%N ->
  parse_digits 0 b (list_ascii_of_string (pretty_N_go x s))
  = parse_digits (Z.of_N x) true (list_ascii_of_string s).
Proof.
  revert s. induction (N.lt_wf_0 x) as [x _ IH]. intros s Hx.
  rewrite pretty_N_go_step by done.
  assert (x `mod` 10 < 10)%N as Hmod by (apply N.mod_lt; lia).
  destruct (pretty_N_char_digit _ Hmod) as [Hval Hund].
  destruct (decide (x `div` 10 = 0)%N) as [Hz|Hnz].
  - rewrite Hz, pretty_N_go_0. simpl. rewrite Hund, Hval.
    f_equal. rewrite (N.div_mod x 10) at 2 by done. lia.
  - assert (x `div` 10 < x)%N as Hlt by (apply N.div_lt; lia).
    assert (0 < x `div` 10)%N as Hpos by by apply N.neq_0_lt_0.
    rewrite (IH _ Hlt _ Hpos).
    simpl. rewrite Hund, Hval. f_equal.
    rewrite (N.div_mod x 10) at 3 by done. lia.
Qed.

Lemma pretty_N_go_chars (x : N) (s : string) :
  Forall (fun c => is_digit_or_minus c = true) (list_ascii_of_string s) ->
  Forall (fun c => is_digit_or_minus c = true)
         (list_ascii_of_string (pretty_N_go x s)).
Proof.
  revert s. induction (N.lt_wf_0 x) as [x _ IH]. intros s Hs.
  destruct (decide (x = 0)%N) as [->|Hx]; [by rewrite pretty_N_go_0|].
  rewrite pretty_N_go_step by lia. apply IH; [apply N.div_lt; lia|].
  simpl. constructor; [|done].
  assert (x `mod` 10 < 10)%N as Hmod by (apply N.mod_lt; lia).
  destruct (pretty_N_char_digit _ Hmod) as [Hval _].
  unfold is_digit_or_minus, is_digit. by rewrite Hval.
Qed.

Lemma pretty_Z_chars (z : Z) :
  Forall (fun c => is_digit_or_minus c = true) (list_ascii_of_string (pretty z)).
Proof.
  destruct z as [|p|p]; unfold pretty, pretty_Z, pretty, pretty_positive,
    pretty, pretty_N.
  - by repeat constructor.
  - destruct (decide (N.pos p = 0%N)); [done|]. by apply pretty_N_go_chars.
  - destruct (decide (N.pos p = 0%N)); [done|]. rewrite chars_app.
    apply Forall_app. split; [by repeat constructor|].
    by apply pretty_N_go_chars.
Qed.

Lemma digit_or_minus_plain c :
  is_digit_or_minus c = true ->
  is_space c = false /\ Ascii.eqb c "," = false.
Proof.
  unfold is_digit_or_minus, is_digit, digit_val, is_space.
  destruct c as [[] [] [] [] [] [] [] []]; by vm_compute.
Qed.

Lemma lstrip_chars_id l :
  match l with c :: _ => is_space c = false | [] => True end ->
  lstrip_chars l = l.
Proof. destruct l as [|c l]; [done|]. simpl. by intros ->. Qed.

(** Stripping changes nothing in a text without whitespace. *)
Lemma strip_id s :
  Forall (fun c => is_space c = false) (list_ascii_of_string s) -> strip s = s.
Proof.
  intros H. unfold strip.
  rewrite (lstrip_chars_id (list_ascii_of_string s)).
  2: { by destruct H. }
  rewrite (lstrip_chars_id (rev _)).
  2: { apply Forall_rev in H. by destruct H. }
  by rewrite rev_involutive, string_of_list_ascii_of_string.
Qed.

Lemma remove_char_id c s :
  Forall (fun a => Ascii.eqb a c = false) (list_ascii_of_string s) ->
  remove_char c s = s.
Proof.
  induction s as [|a s IH]; simpl; [done|].
  intros H. inversion H as [|? ? Ha Hs]; subst. by rewrite Ha, IH.
Qed.

Lemma normalize_int_pretty (z : Z) : normalize_int (pretty z) = pretty z.
Proof.
  pose proof (pretty_Z_chars z) as H. unfold normalize_int.
  rewrite remove_char_id.
  - apply strip_id. eapply Forall_impl; [exact H|].
    intros c Hc. by apply digit_or_minus_plain in Hc as [? _].
  - eapply Forall_impl; [exact H|].
    intros c Hc. by apply digit_or_minus_plain in Hc as [_ ?].
Qed.

Lemma int_of_str_pretty (z : Z) : int_of_str (pretty z) = Some z.
Proof.
  unfold int_of_str. rewrite strip_id.
  2: { eapply Forall_impl; [exact (pretty_Z_chars z)|].
       intros c Hc. by apply digit_or_minus_plain in Hc as [? _]. }
  destruct z as [|p|p].
  - done.
  - unfold pretty, pretty_Z, pretty, pretty_positive, pretty, pretty_N.
    destruct (decide (N.pos p = 0%N)); [done|].
    pose proof (parse_pretty_N_go (N.pos p) false "" eq_refl) as Hp.
    simpl in Hp.
    destruct (list_ascii_of_string (pretty_N_go (N.pos p) "")) as [|c l] eqn:El;
      [done|].
    assert (is_digit_or_minus c = true /\ Ascii.eqb c "-" = false
            /\ Ascii.eqb c "+" = false) as (_ & Hm & Hp').
    { assert (parse_digits 0 false (c :: l) <> None) as Hsome by by rewrite Hp.
      simpl in Hsome.
      destruct c as [[] [] [] [] [] [] [] []]; try done; by vm_compute. }
    destruct c as [[] [] [] [] [] [] [] []]; try done.
  - unfold pretty, pretty_Z, pretty, pretty_positive, pretty, pretty_N.
    destruct (decide (N.pos p = 0%N)); [done|].
    rewrite chars_app. cbn [list_ascii_of_string List.app].
    by rewrite (parse_pretty_N_go (N.pos p) false "" eq_refl).
Qed.

Lemma pretty_Z_ne_empty (z : Z) : pretty z <> "".
Proof.
  intros H. pose proof (int_of_str_pretty z) as Hp. by rewrite H in Hp.
Qed.

Lemma str_int_facts (I : interp) (z : Z) :
  normalize_int (py_str I (JInt z)) = py_str I (JInt z)
  /\ int_of_str (normalize_int (py_str I (JInt z))) = Some z
  /\ String.eqb (strip (py_str I (JInt z))) "" = false.
Proof.
  simpl. rewrite normalize_int_pretty, int_of_str_pretty.
  repeat split; try done.
  rewrite strip_id.
  - apply String.eqb_neq, pretty_Z_ne_empty.
  - eapply Forall_impl; [exact (pretty_Z_chars z)|].
    intros c Hc. by apply digit_or_minus_plain in Hc as [? _].
Qed.

(** X8: the decimal text of an integer reads back as that integer.  [str]
    of an integer has neither commas nor surrounding whitespace, so
    [normalize_int] leaves it alone, and [int()] of it is the integer. *)
Theorem str_int_roundtrip (I : interp) (z : Z) :
  normalize_int (py_str I (JInt z)) = py_str I (JInt z)
  /\ int_of_str (normalize_int (py_str I (JInt z))) = Some z
  /\ py_int (JStr (py_str I (JInt z))) = Some z
  /\ String.eqb (strip (py_str I (JInt z))) "" = false.
Proof.
  destruct (str_int_facts I z) as (Hn & Hp & Hs).
  split; [done|]. split; [done|]. split; [|done].
  simpl. apply int_of_str_pretty.
Qed.

(** ** The thousands separators and [normalize_int] *)

Lemma remove_char_chars c s :
  list_ascii_of_string (remove_char c s)
  = List.filter (fun a => negb (Ascii.eqb a c)) (list_ascii_of_string s).
Proof.
  induction s as [|a s IH]; simpl; [done|].
  destruct (Ascii.eqb a c); simpl; by rewrite IH.
Qed.

Lemma remove_char_of_chars c l :
  remove_char c (string_of_list_ascii l)
  = string_of_list_ascii (List.filter (fun a => negb (Ascii.eqb a c)) l).
Proof.
  rewrite <- (string_of_list_ascii_of_string (remove_char c _)).
  by rewrite remove_char_chars, list_ascii_of_string_of_list_ascii.
Qed.

Lemma remove_char_app c s1 s2 :
  remove_char c (s1 +:+ s2) = remove_char c s1 +:+ remove_char c s2.
Proof.
  induction s1 as [|a s1 IH]; simpl; [done|].
  destruct (Ascii.eqb a c); simpl; by rewrite IH.
Qed.

Lemma filter_rev_commute {A} (f : A -> bool) (l : list A) :
  List.filter f (rev l) = rev (List.filter f l).
Proof.
  induction l as [|a l IH]; simpl; [done|].
  rewrite List.filter_app, IH. simpl. destruct (f a); simpl; [done|].
  by rewrite app_nil_r.
Qed.

(** Dropping the commas of the grouped digits gives the digits back. *)
Lemma filter_commas_rev n l :
  Forall (fun a => Ascii.eqb a "," = false) l ->
  List.filter (fun a => negb (Ascii.eqb a ",")) (commas_rev n l) = l.
Proof.
  intros H. revert n. induction H as [|a l Ha _ IH]; intros n; simpl; [done|].
  destruct (n =? 3)%nat; simpl; rewrite Ha; simpl; by rewrite IH.
Qed.

Lemma remove_commas_fmt (z : Z) : remove_char "," (fmt_commas z) = pretty z.
Proof.
  unfold fmt_commas. rewrite remove_char_app, remove_char_of_chars.
  rewrite filter_rev_commute, filter_commas_rev, rev_involutive,
    string_of_list_ascii_of_string.
  - by destruct z.
  - apply Forall_rev. eapply Forall_impl; [exact (pretty_Z_chars (Z.abs z))|].
    intros c Hc. by apply digit_or_minus_plain in Hc as [_ ?].
Qed.

(** X9: a number shown with thousands separators reads back as itself: the
    text [f"{z:,}"] that the maintenance list displays, passed through
    [normalize_int] and [int()], is [z] again. *)
Theorem fmt_commas_roundtrip (z : Z) :
  normalize_int (fmt_commas z) = pretty z
  /\ int_of_str (normalize_int (fmt_commas z)) = Some z.
Proof.
  assert (normalize_int (fmt_commas z) = pretty z) as ->.
  { unfold normalize_int. rewrite remove_commas_fmt. apply strip_id.
    eapply Forall_impl; [exact (pretty_Z_chars z)|].
    intros c Hc. by apply digit_or_minus_plain in Hc as [? _]. }
  split; [done|]. apply int_of_str_pretty.
Qed.

(** X10: right after mark-done at an integer mileage [c], the task is due
    at [c] plus its interval and the remaining distance is the whole
    interval (or overdue by it, for a negative interval). *)
Theorem mark_done_then_due (I : interp) (c b : Z) (w : world)
  (task : list (string * json)) :
  let interval := py_str I (Dict.get_or "interval_miles" (JStr "") task) in
  String.eqb (strip interval) "" = false ->
  int_of_str (normalize_int interval) = Some b ->
  due_columns I (Some (JInt c)) (stamp_done I (JInt c) w task)
  = (fmt_commas (c + b),
     if (0 <=? b)%Z then fmt_commas b
     else "OVERDUE " +:+ fmt_commas (Z.abs b)).
Proof.
  intros interval Hblank Hint.
  destruct (str_int_facts I c) as (Hnorm & Hparse & Hstrip).
  unfold due_columns, stamp_done, Dict.get_or.
  rewrite (DictFacts.get_set_ne "updated_at" "last_miles") by done.
  rewrite DictFacts.get_set_eq.
  rewrite !(DictFacts.get_set_ne _ "interval_miles") by done.
  fold (Dict.get_or "interval_miles" (JStr "") task).
  fold interval.
  cbn [py_str py_repr]. simpl in Hnorm, Hparse, Hstrip.
  rewrite Hstrip, Hblank, Hparse, Hint. simpl.
  by replace (c + b - c)%Z with b by lia.
Qed.

Lemma mark_done_then_due_witness :
  due_columns bare_interp (Some (JInt 150000))
    (stamp_done bare_interp (JInt 150000) (disk (garage_state (JInt 150000)))
       oil_change)
  = ("153,000", "3,000").
Proof.
  apply (mark_done_then_due bare_interp 150000 3000
           (disk (garage_state (JInt 150000))) oil_change);
    reflexivity.
Defined.
